(** * Museum ticketing REST API: ticket inventory, purchase records and
      the purchase / cancellation routes.

    Shallow embedding of
    - the Ticket model methods   ([isAvailableForPurchase], [reserveStock],
      [releaseStock], [updateStats]),
    - the Purchase model         (schema defaults, the [isValid] and
      [isExpired] virtuals, [validatePurchase], [cancelPurchase],
      [refundPurchase]),
    - the routes [POST /api/purchases], [PATCH /api/purchases/:id/cancel],
      [POST /api/purchases/validate] and [GET /api/purchases/:id],
    - the ticket routes and the role checks of the authentication
      middleware.

    Conventions.
    - A JavaScript [Number] that holds money (price, totals, tax, revenue)
      is an IEEE binary64 value: Rocq's primitive [float].  A [Number] that
      holds a count (stock, quantity, purchaseCount) is an integer in the
      code's inputs (the request validators use [isInt]) and is a [Z]; the
      additions and subtractions that store a count round their exact
      result to the nearest binary64 value ([JS.round_int], the identity
      up to 2^53).
    - A string is the UTF-8 encoding of the JavaScript string; [s.length]
      counts UTF-16 code units and [s.trim()] removes the white space of
      ECMAScript.
    - A [Date] is its millisecond timestamp, a [Z]; [new Date()] and
      [Date.now()] read a clock that the embedding receives as an argument.
    - A document method runs on [this] and on the collection the document
      was fetched from: [save()] writes [this] back under its [_id].  The
      saves of the Ticket methods skip validation
      ([validateBeforeSave: false]) and are plain writes; the saves of a
      Purchase validate first and may reject. *)

From Stdlib Require Import ZArith Floats Uint63 Bool List Lia.
From stdpp Require Import gmap strings pretty.

Set Warnings "-inexact-float".
Open Scope Z_scope.

(** ** JavaScript values *)

Module JS.

(** An integer count used as an operand of a floating-point product
    ([ticket.price * item.quantity]); exact on the counts the routes
    handle (quantities of 1 to 20), and on every integer below 2^53 in
    absolute value. *)
Definition number_of_Z (z : Z) : float :=
  match z with
  | Z0 => 0%float
  | Zpos _ => PrimFloat.of_uint63 (Uint63.of_Z z)
  | Zneg p => PrimFloat.opp (PrimFloat.of_uint63 (Uint63.of_Z (Zpos p)))
  end.

(** A promise that has settled. *)
Inductive Promise (A : Type) : Type :=
| Resolved (value : A)
| Rejected (error : string).
Arguments Resolved {A} value.
Arguments Rejected {A} error.

(** Truthiness of an optional string: [undefined] and [''] are falsy. *)
Definition truthy (s : option string) : bool :=
  match s with
  | None => false
  | Some EmptyString => false
  | Some _ => true
  end.

(** The escape [\n] of a template literal. *)
Definition newline : string := String (Ascii.ascii_of_nat 10) EmptyString.

(** A default parameter value ([function (reason = '')]). *)
Definition or_default {A : Type} (d : A) (o : option A) : A :=
  match o with Some a => a | None => d end.

(** *** Strings

    A string is the UTF-8 encoding of the JavaScript string. *)

Definition byte (a : Ascii.ascii) : Z := Z.of_N (Ascii.N_of_ascii a).

(** [s.length]: the number of UTF-16 code units.  A continuation byte
    adds nothing; the lead byte of a four-byte sequence stands for a
    surrogate pair. *)
Fixpoint length (s : string) : Z :=
  match s with
  | EmptyString => 0
  | String a rest =>
    (if (128 <=? byte a) && (byte a <? 192) then 0
     else if 240 <=? byte a then 2 else 1) + length rest
  end.

(** White space and line terminators of ECMAScript, by the bytes of their
    encodings: U+0009 to U+000D and U+0020; U+00A0; U+1680, U+2000 to
    U+200A, U+2028, U+2029, U+202F, U+205F, U+3000 and U+FEFF. *)
Definition ws1 (a : Z) : bool :=
  ((9 <=? a) && (a <=? 13)) || (a =? 32).

Definition ws2 (a b : Z) : bool :=
  (a =? 194) && (b =? 160).

Definition ws3 (a b c : Z) : bool :=
  ((a =? 225) && (b =? 154) && (c =? 128))
  || ((a =? 226) && (b =? 128)
      && (((128 <=? c) && (c <=? 138)) || (c =? 168) || (c =? 169)
          || (c =? 175)))
  || ((a =? 226) && (b =? 129) && (c =? 159))
  || ((a =? 227) && (b =? 128) && (c =? 128))
  || ((a =? 239) && (b =? 187) && (c =? 191)).

(** Drop the white space at the head of [s]; with [backwards], [s] is a
    reversed string and the bytes of a character come last byte first. *)
Fixpoint strip (backwards : bool) (s : string) : string :=
  match s with
  | EmptyString => s
  | String a rest =>
    if ws1 (byte a) then strip backwards rest
    else
      match rest with
      | EmptyString => s
      | String b rest2 =>
        if (if backwards then ws2 (byte b) (byte a)
            else ws2 (byte a) (byte b))
        then strip backwards rest2
        else
          match rest2 with
          | EmptyString => s
          | String c rest3 =>
            if (if backwards then ws3 (byte c) (byte b) (byte a)
                else ws3 (byte a) (byte b) (byte c))
            then strip backwards rest3
            else s
          end
      end
  end.

(** [s.trim()]. *)
Definition trim (s : string) : string :=
  String.rev (strip true (String.rev (strip false s))).

(** A printable ASCII character other than the space, and the strings
    made of such characters. *)
Definition graphic (a : Ascii.ascii) : bool :=
  (32 <? byte a) && (byte a <? 127).

Fixpoint all_graphic (s : string) : bool :=
  match s with
  | EmptyString => true
  | String a rest => graphic a && all_graphic rest
  end.

(** The digit [d] of a numeral in base 36, in upper case. *)
Definition digit36 (d : N) : Ascii.ascii :=
  let d := (d mod 36)%N in
  Ascii.ascii_of_N (if (d <? 10)%N then 48 + d else 55 + d)%N.

(** *** Integers held in a Number

    The binary64 value nearest to the integer [z], ties to even: the
    result of an addition or subtraction of two integer-valued Numbers
    whose exact result is [z] (below 2^1024 in absolute value, where the
    result is finite).  It is [z] itself up to 2^53 in absolute value. *)
Definition round_int (z : Z) : Z :=
  let a := Z.abs z in
  if a <? 2 ^ 53 then z
  else
    let e := Z.log2 a - 52 in
    let q := Z.shiftr a e in
    let r := a - Z.shiftl q e in
    let half := Z.shiftl 1 (e - 1) in
    let q' := if (r >? half) || ((r =? half) && Z.odd q) then q + 1 else q in
    Z.sgn z * Z.shiftl q' e.

(** The integers that a Number holds exactly, with their neighbours. *)
Definition safe (z : Z) : Prop := - 2 ^ 53 <= z <= 2 ^ 53.

End JS.

(** ** Document methods: a state monad over [this] and its collection *)

Module Doc.

Record Env (D : Type) : Type := mkEnv {
  this : D;
  collection : gmap string D
}.
Arguments mkEnv {D} this collection.
Arguments this {D} e.
Arguments collection {D} e.

Definition M (D A : Type) : Type := Env D -> A * Env D.

Definition ret {D A : Type} (a : A) : M D A := fun e => (a, e).

Definition bind {D A B : Type} (m : M D A) (k : A -> M D B) : M D B :=
  fun e => let (a, e') := m e in k a e'.

(** Read [this]. *)
Definition self {D : Type} : M D D := fun e => (this e, e).

(** Assign to a field of [this]: [update f] replaces [this] by [f this]. *)
Definition update {D : Type} (f : D -> D) : M D unit :=
  fun e => (tt, mkEnv (f (this e)) (collection e)).

(** [this.save({ validateBeforeSave: false })], and [this.save()] on a
    document that passes validation: write [this] under its identifier. *)
Definition save {D : Type} (key : D -> string) : M D D :=
  fun e => (this e, mkEnv (this e) (<[key (this e) := this e]> (collection e))).

End Doc.

Declare Scope doc_scope.
Delimit Scope doc_scope with doc.
Notation "'let*' x ':=' m 'in' k" := (Doc.bind m (fun x => k))
  (at level 10, x name, m at level 100, k at level 200) : doc_scope.
Notation "'run' m 'in' k" := (Doc.bind m (fun _ => k))
  (at level 10, m at level 100, k at level 200) : doc_scope.

(** ** The Ticket model *)

Module Ticket.

Inductive Category : Set :=
| Entree | VisiteGuidee | Evenement | Abonnement | Groupe | Reduction.

Record t : Type := mk {
  _id : string;
  type : string;
  description : string;
  price : float;
  isAvailable : bool;
  stock : Z;                (* -1 = unlimited; an integer-valued Number *)
  validityDays : Z;
  category : Category;
  createdBy : string;
  purchaseCount : Z;
  revenue : float
}.

Definition set_stock (v : Z) (x : t) : t :=
  mk (_id x) (type x) (description x) (price x) (isAvailable x) v
     (validityDays x) (category x) (createdBy x) (purchaseCount x) (revenue x).

Definition set_stats (count : Z) (rev : float) (x : t) : t :=
  mk (_id x) (type x) (description x) (price x) (isAvailable x) (stock x)
     (validityDays x) (category x) (createdBy x) count rev.

(** What [reserveStock] and [releaseStock] return: a boolean, or the
    promise of the saved document. *)
Inductive StockResult : Type :=
| Bool (b : bool)
| Saved (doc : t).

Open Scope doc_scope.

Definition inStock (x : t) : bool :=
  (stock x =? -1) || (stock x >? 0).

Definition isAvailableForPurchase (quantity : Z) : Doc.M t bool :=
  let* this := Doc.self in
  if negb (isAvailable this) then Doc.ret false
  else if stock this =? -1 then Doc.ret true
  else Doc.ret (stock this >=? quantity).

Definition reserveStock (quantity : Z) : Doc.M t StockResult :=
  let* this := Doc.self in
  if stock this =? -1 then Doc.ret (Bool true)
  else if stock this >=? quantity then
    run Doc.update (set_stock (JS.round_int (stock this - quantity))) in
    let* doc := Doc.save _id in
    Doc.ret (Saved doc)
  else Doc.ret (Bool false).

Definition releaseStock (quantity : Z) : Doc.M t StockResult :=
  let* this := Doc.self in
  if stock this =? -1 then Doc.ret (Bool true)
  else
    run Doc.update (set_stock (JS.round_int (stock this + quantity))) in
    let* doc := Doc.save _id in
    Doc.ret (Saved doc).

(** [quantity] is a Number here.  The POST handler hands over the raw
    quantity of the request; sent as a JSON string of digits it passes the
    validator, and the comparisons and the arithmetic on the stock and the
    prices convert it to the same Number, but the [+=] on [purchaseCount]
    concatenates.  The properties of the purchase route are stated on the
    stock, not on [purchaseCount]. *)
Definition updateStats (quantity : Z) (totalPrice : float) : Doc.M t t :=
  let* this := Doc.self in
  run Doc.update (set_stats (JS.round_int (purchaseCount this + quantity))
                            (revenue this + totalPrice)%float) in
  Doc.save _id.

Close Scope doc_scope.

End Ticket.

(** ** The Purchase model *)

Module Purchase.

Inductive Status : Set :=
| pending | confirmed | cancelled | refunded | expired.

Inductive PaymentMethod : Set :=
| cash | card | mobile_money | bank_transfer.

Definition Status_eqb (a b : Status) : bool :=
  match a, b with
  | pending, pending | confirmed, confirmed | cancelled, cancelled
  | refunded, refunded | expired, expired => true
  | _, _ => false
  end.

Record Customer : Type := mkCustomer {
  userId : string;
  firstName : string;
  lastName : string;
  email : string;
  phone : option string
}.

Record Item : Type := mkItem {
  ticketId : string;
  ticketType : string;
  quantity : Z;
  unitPrice : float;
  totalPrice : float
}.

Record t : Type := mk {
  _id : string;
  customer : Customer;
  items : list Item;
  subtotal : float;
  tax : float;
  discount : float;
  total : float;
  status : Status;
  qrCode : string;
  qrCodeBase64 : string;
  purchaseDate : Z;
  validFrom : Z;
  validUntil : Z;
  paymentMethod : PaymentMethod;
  paymentReference : option string;
  notes : option string;
  ipAddress : option string;
  userAgent : option string
}.

(** The object literal given to [new Purchase({...})]: the fields that
    have a schema default may be left out. *)
Record Fields : Type := mkFields {
  f_customer : Customer;
  f_items : list Item;
  f_subtotal : float;
  f_tax : option float;
  f_discount : option float;
  f_total : float;
  f_status : option Status;
  f_qrCode : string;
  f_qrCodeBase64 : string;
  f_purchaseDate : option Z;
  f_validFrom : option Z;
  f_validUntil : Z;
  f_paymentMethod : PaymentMethod;
  f_paymentReference : option string;
  f_notes : option string;
  f_ipAddress : option string;
  f_userAgent : option string
}.

(** Schema defaults. *)
Definition default_tax : float := 0%float.
Definition default_discount : float := 0%float.
Definition default_status : Status := pending.

(** The setter of a String path with [trim: true]: every assignment
    stores the trimmed text. *)
Definition trim_setter (v : option string) : option string :=
  match v with Some s => Some (JS.trim s) | None => None end.

(** [new Purchase(fields)]: [id] is the identifier the driver draws for
    the document, [now] the reading of [Date.now] used by the two date
    defaults.  The trim setters are applied to the paths that reach the
    constructor as the client or the handler wrote them: the phone, the
    code, the payment reference, the notes, the address and the user
    agent.  The names and the e-mail come trimmed (the e-mail in lower
    case) from the request validator, and the ticket types from the
    Ticket schema, so that their setters leave them as they are. *)
Definition new (id : string) (now : Z) (f : Fields) : t :=
  mk id
     (mkCustomer (userId (f_customer f)) (firstName (f_customer f))
        (lastName (f_customer f)) (email (f_customer f))
        (trim_setter (phone (f_customer f))))
     (f_items f) (f_subtotal f)
     (JS.or_default default_tax (f_tax f))
     (JS.or_default default_discount (f_discount f))
     (f_total f)
     (JS.or_default default_status (f_status f))
     (JS.trim (f_qrCode f)) (f_qrCodeBase64 f)
     (JS.or_default now (f_purchaseDate f))
     (JS.or_default now (f_validFrom f))
     (f_validUntil f) (f_paymentMethod f)
     (trim_setter (f_paymentReference f))
     (trim_setter (f_notes f))
     (trim_setter (f_ipAddress f)) (trim_setter (f_userAgent f)).

Definition set_status (v : Status) (x : t) : t :=
  mk (_id x) (customer x) (items x) (subtotal x) (tax x) (discount x)
     (total x) v (qrCode x) (qrCodeBase64 x) (purchaseDate x)
     (validFrom x) (validUntil x) (paymentMethod x) (paymentReference x)
     (notes x) (ipAddress x) (userAgent x).

Definition set_notes (v : option string) (x : t) : t :=
  mk (_id x) (customer x) (items x) (subtotal x) (tax x) (discount x)
     (total x) (status x) (qrCode x) (qrCodeBase64 x) (purchaseDate x)
     (validFrom x) (validUntil x) (paymentMethod x) (paymentReference x)
     v (ipAddress x) (userAgent x).

Definition set_validFrom (v : Z) (x : t) : t :=
  mk (_id x) (customer x) (items x) (subtotal x) (tax x) (discount x)
     (total x) (status x) (qrCode x) (qrCodeBase64 x) (purchaseDate x)
     v (validUntil x) (paymentMethod x) (paymentReference x)
     (notes x) (ipAddress x) (userAgent x).

(** [this.notes = v]. *)
Definition assign_notes (v : string) (x : t) : t :=
  set_notes (trim_setter (Some v)) x.

(** *** Saving a purchase

    [save()] validates before it writes.  Written out here: the
    [maxlength] of [notes] (500 code units) and, for a new document, the
    unique index on [qrCode].  What else the driver and the store check
    (the cast of [customer.userId] to an ObjectId, the validators of the
    other paths) depends on the document and on the collection only, and is
    an [Acceptance] that the embedding receives. *)
Definition Acceptance : Type := t -> gmap string t -> bool.

Definition notes_ok (x : t) : bool :=
  match notes x with
  | None => true
  | Some s => JS.length s <=? 500
  end.

Definition code_taken (code : string) (coll : gmap string t) : bool :=
  existsb (fun kv => String.eqb (qrCode (snd kv)) code) (map_to_list coll).

Definition save_ok (accepts : Acceptance) (coll : gmap string t) (x : t)
  : bool :=
  notes_ok x && accepts x coll.

Definition insert_ok (accepts : Acceptance) (coll : gmap string t) (x : t)
  : bool :=
  negb (code_taken (qrCode x) coll) && save_ok accepts coll x.

(** [this.save()] on a stored document: a rejection leaves the store as it
    was and [this] as the method left it.  The text of the error, which no
    route passes on, is not modelled. *)
Definition save (accepts : Acceptance) : Doc.M t (JS.Promise t) :=
  fun e =>
    if save_ok accepts (Doc.collection e) (Doc.this e) then
      (JS.Resolved (Doc.this e),
       Doc.mkEnv (Doc.this e)
         (<[_id (Doc.this e) := Doc.this e]> (Doc.collection e)))
    else (JS.Rejected "Purchase validation failed"%string, e).

(** [this.save()] on a new document. *)
Definition save_new (accepts : Acceptance) : Doc.M t (JS.Promise t) :=
  fun e =>
    if insert_ok accepts (Doc.collection e) (Doc.this e) then
      (JS.Resolved (Doc.this e),
       Doc.mkEnv (Doc.this e)
         (<[_id (Doc.this e) := Doc.this e]> (Doc.collection e)))
    else (JS.Rejected "Purchase validation failed"%string, e).

(** Virtuals; [now] is the reading of [new Date()]. *)
Definition isValid (now : Z) (x : t) : bool :=
  Status_eqb (status x) confirmed
  && (validFrom x <=? now) && (validUntil x >=? now).

Definition isExpired (now : Z) (x : t) : bool :=
  now >? validUntil x.

Definition totalItems (x : t) : Z :=
  fold_left (fun total item => total + quantity item) (items x) 0.

(** The object returned by [validatePurchase]. *)
Inductive Validation : Type :=
| Invalid (error : string)          (* { valid: false, error } *)
| Valid (purchase : t).             (* { valid: true, purchase: this } *)

Definition valid (v : Validation) : bool :=
  match v with Valid _ => true | Invalid _ => false end.

Open Scope doc_scope.
Open Scope string_scope.

Definition validatePurchase (now : Z) : Doc.M t Validation :=
  let* this := Doc.self in
  if negb (Status_eqb (status this) confirmed) then
    Doc.ret (Invalid "Achat non confirmé")
  else if isExpired now this then
    Doc.ret (Invalid "Achat expiré")
  else Doc.ret (Valid this).

(** The template literal assigned to [notes] by cancellation and refund. *)
Definition annotate (label : string) (old : option string) (reason : string)
  : string :=
  if JS.truthy old
  then JS.or_default "" old ++ JS.newline ++ label ++ ": " ++ reason
  else label ++ ": " ++ reason.

Definition cancelPurchase (accepts : Acceptance) (reason : option string)
  : Doc.M t (JS.Promise t) :=
  let reason := JS.or_default "" reason in
  let* this := Doc.self in
  if Status_eqb (status this) confirmed then
    run Doc.update (set_status cancelled) in
    let* this := Doc.self in
    run Doc.update (assign_notes (annotate "Annulé" (notes this) reason)) in
    save accepts
  else
    Doc.ret (JS.Rejected "Impossible d'annuler un achat non confirmé").

(** The record that a cancellation hands to [save()], in closed form. *)
Definition cancelled_record (reason : option string) (x : t) : t :=
  assign_notes (annotate "Annulé" (notes x) (JS.or_default "" reason))
    (set_status cancelled x).

Definition refundPurchase (accepts : Acceptance) (reason : option string)
  : Doc.M t (JS.Promise t) :=
  let reason := JS.or_default "" reason in
  let* this := Doc.self in
  if Status_eqb (status this) confirmed
     || Status_eqb (status this) cancelled then
    run Doc.update (set_status refunded) in
    let* this := Doc.self in
    run Doc.update (assign_notes (annotate "Remboursé" (notes this) reason)) in
    save accepts
  else
    Doc.ret (JS.Rejected "Impossible de rembourser cet achat").

Close Scope string_scope.
Close Scope doc_scope.

End Purchase.

(** ** Route handlers: state of the two collections, early responses and
       exceptions *)

Module Routes.

Record DB : Type := mkDB {
  tickets : gmap string Ticket.t;
  purchases : gmap string Purchase.t
}.

(** [res.status(code).json({ success, message, data })]. *)
Record Response : Type := mkResponse {
  status : Z;
  success : bool;
  message : string;
  data : option Purchase.t
}.

Definition failure (code : Z) (msg : string) : Response :=
  mkResponse code false msg None.

(** A handler body either goes on with a value, has sent its response
    ([return res.status(..).json(..)]), or has thrown. *)
Inductive Step (A : Type) : Type :=
| Next (a : A)
| Respond (r : Response)
| Throw (error : string).
Arguments Next {A} a.
Arguments Respond {A} r.
Arguments Throw {A} error.

Definition H (A : Type) : Type := DB -> Step A * DB.

Definition ret {A : Type} (a : A) : H A := fun db => (Next a, db).

Definition bind {A B : Type} (m : H A) (k : A -> H B) : H B :=
  fun db =>
    match m db with
    | (Next a, db') => k a db'
    | (Respond r, db') => (Respond r, db')
    | (Throw e, db') => (Throw e, db')
    end.

Definition respond {A : Type} (r : Response) : H A :=
  fun db => (Respond r, db).

Definition throw {A : Type} (e : string) : H A :=
  fun db => (Throw e, db).

(** [await p]: a rejected promise throws. *)
Definition await {A : Type} (p : JS.Promise A) : H A :=
  match p with
  | JS.Resolved a => ret a
  | JS.Rejected e => throw e
  end.

(** [try { body } catch (error) { res.status(500).json(..) }]. *)
Definition try_catch (body : H Response) (on_error : Response)
  : DB -> Response * DB :=
  fun db =>
    match body db with
    | (Next r, db') => (r, db')
    | (Respond r, db') => (r, db')
    | (Throw _, db') => (on_error, db')
    end.

(** [Ticket.findById(id)]. *)
Definition Ticket_findById (id : string) : H (option Ticket.t) :=
  fun db => (Next (tickets db !! id), db).

(** [Purchase.findOne({ _id: id, 'customer.userId': user })]. *)
Definition Purchase_findOne (id user : string) : H (option Purchase.t) :=
  fun db =>
    (Next (match purchases db !! id with
           | Some p =>
               if String.eqb (Purchase.userId (Purchase.customer p)) user
               then Some p else None
           | None => None
           end), db).

(** [Purchase.findOne({ qrCode })], for a code that is a string: the
    filter is cast through the setter of the path, so the stored codes are
    compared with the trimmed text. *)
Definition Purchase_findOne_qrCode (code : string) : H (option Purchase.t) :=
  fun db =>
    (Next (snd <$> List.find
                     (fun kv => String.eqb (Purchase.qrCode (snd kv))
                                  (JS.trim code))
                     (map_to_list (purchases db))), db).

(** A method call [doc.m(..)] on a ticket document: the method runs on
    [doc] and on the tickets collection; the caller keeps the mutated
    document. *)
Definition call_ticket {A : Type} (doc : Ticket.t) (m : Doc.M Ticket.t A)
  : H (A * Ticket.t) :=
  fun db =>
    let (a, e) := m (Doc.mkEnv doc (tickets db)) in
    (Next (a, Doc.this e), mkDB (Doc.collection e) (purchases db)).

Definition call_purchase {A : Type} (doc : Purchase.t)
  (m : Doc.M Purchase.t A) : H (A * Purchase.t) :=
  fun db =>
    let (a, e) := m (Doc.mkEnv doc (purchases db)) in
    (Next (a, Doc.this e), mkDB (tickets db) (Doc.collection e)).

End Routes.

Declare Scope handler_scope.
Delimit Scope handler_scope with handler.
Notation "'let*' x ':=' m 'in' k" := (Routes.bind m (fun x => k))
  (at level 10, x name, m at level 100, k at level 200) : handler_scope.
Notation "'run' m 'in' k" := (Routes.bind m (fun _ => k))
  (at level 10, m at level 100, k at level 200) : handler_scope.

(** ** Requests *)

Module Req.

(** One entry of [req.body.items]; the validator lets a quantity in
    1..20 through, as a number or as a string of digits that the
    comparisons and the arithmetic on the stock and the prices convert to
    that number. *)
Record Line : Type := mkLine {
  ticketId : string;
  quantity : Z
}.

(** [req.body.customer]; the object is spread after [userId], so a
    [userId] of its own replaces the authenticated one. *)
Record Customer : Type := mkCustomer {
  userId : option string;
  firstName : string;
  lastName : string;
  email : string;
  phone : option string
}.

Record Body : Type := mkBody {
  customer : Customer;
  items : list Line;
  paymentMethod : Purchase.PaymentMethod;
  notes : option string
}.

Record t : Type := mk {
  user_id : string;          (* req.user.id *)
  body : Body;
  ip : option string;
  userAgent : option string
}.

End Req.

(** What one [POST /api/purchases] reads from outside the store. *)
Record World : Type := mkWorld {
  now_code : Z;                                (* Date.now() in the code *)
  random_digits : list N;                      (* Math.random() in base 36,
                                                  the digits after the point *)
  toDataURL : string -> JS.Promise string;     (* QRCode.toDataURL *)
  now_validUntil : Z;                          (* Date.now() in validUntil *)
  new_id : string;                             (* _id of the new document *)
  now_defaults : Z;                            (* Date.now of the schema defaults *)
  store_accepts : Purchase.Acceptance          (* what purchase.save() checks *)
}.

Module PurchaseRoutes.

Import Routes.
Open Scope handler_scope.
Open Scope string_scope.

Definition dquote : string := String (Ascii.ascii_of_nat 34) EmptyString.

(** TVA de 18%. *)
Definition TVA : float := 0.18%float.

Definition thirty_days : Z := 30 * 24 * 60 * 60 * 1000.

(** First loop of the POST handler: availability check and totals. *)
Fixpoint check_lines (items : list Req.Line) (subtotal : float)
  (processedItems : list Purchase.Item)
  : H (float * list Purchase.Item) :=
  match items with
  | [] => ret (subtotal, processedItems)
  | item :: rest =>
    let* found := Ticket_findById (Req.ticketId item) in
    match found with
    | None =>
      respond (failure 400
        ("Billet avec l'ID " ++ Req.ticketId item ++ " non trouvé"))
    | Some ticket =>
      let* r := call_ticket ticket
                  (Ticket.isAvailableForPurchase (Req.quantity item)) in
      let ticket := snd r in
      if negb (fst r) then
        respond (failure 400
          ("Billet " ++ dquote ++ Ticket.type ticket ++ dquote
           ++ " non disponible en quantité " ++ pretty (Req.quantity item)))
      else
        let itemTotal :=
          (Ticket.price ticket * JS.number_of_Z (Req.quantity item))%float in
        check_lines rest (subtotal + itemTotal)%float
          (processedItems ++
           [Purchase.mkItem (Ticket._id ticket) (Ticket.type ticket)
              (Req.quantity item) (Ticket.price ticket) itemTotal])
    end
  end.

(** Second loop of the POST handler: reserve the stock, update the
    statistics.  A ticket that is gone makes [ticket.reserveStock] throw. *)
Fixpoint commit_stock (processedItems : list Purchase.Item) : H unit :=
  match processedItems with
  | [] => ret tt
  | item :: rest =>
    let* found := Ticket_findById (Purchase.ticketId item) in
    match found with
    | None => throw "TypeError: Cannot read properties of null"
    | Some ticket =>
      let* r := call_ticket ticket
                  (Ticket.reserveStock (Purchase.quantity item)) in
      let ticket := snd r in
      let* r := call_ticket ticket
                  (Ticket.updateStats (Purchase.quantity item)
                                      (Purchase.totalPrice item)) in
      commit_stock rest
    end
  end.

(** [Math.random().toString(36).substr(2, 5).toUpperCase()]: the first
    five digits, or fewer when the numeral is shorter. *)
Definition random_suffix (w : World) : string :=
  Stdlib.Strings.String.string_of_list_ascii
    (map JS.digit36 (firstn 5 (random_digits w))).

(** The code of the purchase, [`PUR${Date.now()}${suffix}`]. *)
Definition purchaseId (w : World) : string :=
  "PUR" ++ pretty (now_code w) ++ random_suffix w.

(** The [new Purchase({ ... })] of the POST handler. *)
Definition new_purchase (w : World) (req : Req.t)
  (processedItems : list Purchase.Item) (subtotal tax total : float)
  (purchaseId qrCodeBase64 : string) : Purchase.t :=
  let body := Req.body req in
  Purchase.new (new_id w) (now_defaults w)
    {| Purchase.f_customer :=
         Purchase.mkCustomer
           (JS.or_default (Req.user_id req) (Req.userId (Req.customer body)))
           (Req.firstName (Req.customer body))
           (Req.lastName (Req.customer body))
           (Req.email (Req.customer body))
           (Req.phone (Req.customer body));
       Purchase.f_items := processedItems;
       Purchase.f_subtotal := subtotal;
       Purchase.f_tax := Some tax;
       Purchase.f_discount := None;
       Purchase.f_total := total;
       Purchase.f_status := None;
       Purchase.f_qrCode := purchaseId;
       Purchase.f_qrCodeBase64 := qrCodeBase64;
       Purchase.f_purchaseDate := None;
       Purchase.f_validFrom := None;
       Purchase.f_validUntil := now_validUntil w + thirty_days;
       Purchase.f_paymentMethod := Req.paymentMethod body;
       Purchase.f_paymentReference := None;
       Purchase.f_notes := Req.notes body;
       Purchase.f_ipAddress := Req.ip req;
       Purchase.f_userAgent := Req.userAgent req |}.

Definition create_body (w : World) (req : Req.t) : H Response :=
  let* checked := check_lines (Req.items (Req.body req)) 0%float [] in
  let subtotal := fst checked in
  let processedItems := snd checked in
  let tax := (subtotal * TVA)%float in
  let total := (subtotal + tax)%float in
  let purchaseId := purchaseId w in
  let* qrCodeBase64 := await (toDataURL w purchaseId) in
  let purchase :=
    new_purchase w req processedItems subtotal tax total
      purchaseId qrCodeBase64 in
  let* saved := call_purchase purchase
                  (Purchase.save_new (store_accepts w)) in
  let purchase := snd saved in
  run await (fst saved) in
  run commit_stock processedItems in
  (* populate('items.ticketId', ..) only changes how the ticket
     references are rendered in the response *)
  ret (mkResponse 201 true "Achat créé avec succès" (Some purchase)).

(** [POST /api/purchases], after authentication and validation. *)
Definition create (w : World) (req : Req.t) : DB -> Response * DB :=
  try_catch (create_body w req)
    (failure 500 "Erreur lors de la création de l'achat").

(** Loop of the cancel handler: release the stock of every line whose
    ticket still exists. *)
Fixpoint release_lines (items : list Purchase.Item) : H unit :=
  match items with
  | [] => ret tt
  | item :: rest =>
    let* found := Ticket_findById (Purchase.ticketId item) in
    match found with
    | Some ticket =>
      let* r := call_ticket ticket
                  (Ticket.releaseStock (Purchase.quantity item)) in
      release_lines rest
    | None => release_lines rest
    end
  end.

Definition cancel_body (accepts : Purchase.Acceptance) (user id : string)
  (reason : option string) : H Response :=
  let* found := Purchase_findOne id user in
  match found with
  | None => respond (failure 404 "Achat non trouvé")
  | Some purchase =>
    let* r := call_purchase purchase
                (Purchase.cancelPurchase accepts reason) in
    let purchase := snd r in
    let* saved := await (fst r) in
    run release_lines (Purchase.items purchase) in
    ret (mkResponse 200 true "Achat annulé avec succès" (Some purchase))
  end.

(** [PATCH /api/purchases/:id/cancel], after authentication and
    validation of the identifier. *)
Definition cancel (accepts : Purchase.Acceptance) (user id : string)
  (reason : option string) : DB -> Response * DB :=
  try_catch (cancel_body accepts user id reason)
    (failure 500 "Erreur lors de l'annulation de l'achat").

Definition validate_body (now : Z) (qrCode : option string) : H Response :=
  if negb (JS.truthy qrCode) then respond (failure 400 "QR code requis")
  else
    let* found := Purchase_findOne_qrCode (JS.or_default "" qrCode) in
    match found with
    | None => respond (failure 404 "QR code invalide")
    | Some purchase =>
      let* r := call_purchase purchase (Purchase.validatePurchase now) in
      match fst r with
      | Purchase.Invalid error => respond (failure 400 error)
      | Purchase.Valid _ =>
        ret (mkResponse 200 true "Billet valide" (Some (snd r)))
      end
    end.

(** [POST /api/purchases/validate]. *)
Definition validate (now : Z) (qrCode : option string)
  : DB -> Response * DB :=
  try_catch (validate_body now qrCode)
    (failure 500 "Erreur lors de la validation du billet").

Close Scope string_scope.
Close Scope handler_scope.

(** *** Closed forms used to state the properties below *)

(** The answer of [isAvailableForPurchase], as a function of the ticket. *)
Definition available (tk : Ticket.t) (q : Z) : bool :=
  Ticket.isAvailable tk && ((Ticket.stock tk =? -1) || (q <=? Ticket.stock tk)).

(** The line that [check_lines] records for a request line on ticket [tk]. *)
Definition line_item (tk : Ticket.t) (line : Req.Line) : Purchase.Item :=
  Purchase.mkItem (Ticket._id tk) (Ticket.type tk) (Req.quantity line)
    (Ticket.price tk)
    (Ticket.price tk * JS.number_of_Z (Req.quantity line))%float.

(** Every ticket is stored under its own identifier. *)
Definition well_keyed (coll : gmap string Ticket.t) : Prop :=
  forall (k : string) (tk : Ticket.t),
    coll !! k = Some tk -> Ticket._id tk = k.

(** A request line that the first loop accepts. *)
Definition valid_line (coll : gmap string Ticket.t) (line : Req.Line) : Prop :=
  exists tk, coll !! Req.ticketId line = Some tk
             /\ available tk (Req.quantity line) = true.

(** The purchase that a completed first loop leads to. *)
Definition purchase_for (w : World) (req : Req.t) (subtotal : float)
  (processed : list Purchase.Item) (image : string) : Purchase.t :=
  new_purchase w req processed subtotal (subtotal * TVA)%float
    (subtotal + subtotal * TVA)%float (purchaseId w) image.

End PurchaseRoutes.

(** ** Responses of the read and ticket routes *)

Module Http.

(** [res.status(code).json({ success, message, data })]; [message] and
    [data] may be left out. *)
Record Response (D : Type) : Type := mk {
  status : Z;
  success : bool;
  message : option string;
  data : option D
}.
Arguments mk {D} status success message data.
Arguments status {D} r.
Arguments success {D} r.
Arguments message {D} r.
Arguments data {D} r.

Definition failure {D : Type} (code : Z) (msg : string) : Response D :=
  mk code false (Some msg) None.

End Http.

(** ** Role checks of the authentication middleware *)

Module Auth.

(** [req.user], as far as the role checks read it. *)
Record User : Type := mkUser {
  id : string;
  role : string;
  isActive : bool
}.

(** A middleware calls [next()] or answers itself. *)
Inductive Outcome : Type :=
| Pass
| Deny (status : Z) (message : string).

Open Scope string_scope.

Definition requireAdmin (user : option User) : Outcome :=
  match user with
  | None => Deny 401 "Authentification requise"
  | Some u =>
    if negb (String.eqb (role u) "admin") then
      Deny 403 "Accès refusé. Droits administrateur requis."
    else Pass
  end.

Definition requireUser (user : option User) : Outcome :=
  match user with
  | None => Deny 401 "Authentification requise"
  | Some u =>
    if negb (existsb (String.eqb (role u)) ["user"; "admin"]) then
      Deny 403 "Accès refusé. Rôle utilisateur requis."
    else Pass
  end.

Close Scope string_scope.

End Auth.

(** ** The ticket routes *)

Module TicketRoutes.

Import Routes.
Open Scope string_scope.

(** [req.body] of the ticket routes: the validator requires the first
    four fields; the others are the schema fields a client may add. *)
Record Body : Type := mkBody {
  type : string;
  description : string;
  price : float;
  category : Ticket.Category;
  isAvailable : option bool;
  stock : option Z;
  validityDays : option Z;
  createdBy : option string;
  purchaseCount : option Z;
  revenue : option float
}.

(** [new Ticket({ ...req.body, createdBy: user })] with the schema defaults;
    [id] is the identifier the driver draws. *)
Definition new_ticket (id user : string) (body : Body) : Ticket.t :=
  Ticket.mk id (type body) (description body) (price body)
    (JS.or_default true (isAvailable body))
    (JS.or_default (-1) (stock body))
    (JS.or_default 30 (validityDays body))
    (category body) user
    (JS.or_default 0 (purchaseCount body))
    (JS.or_default 0%float (revenue body)).

(** The [$set] of [findByIdAndUpdate(id, req.body)]: the fields of the body
    replace those of the document. *)
Definition apply_body (body : Body) (x : Ticket.t) : Ticket.t :=
  Ticket.mk (Ticket._id x) (type body) (description body) (price body)
    (JS.or_default (Ticket.isAvailable x) (isAvailable body))
    (JS.or_default (Ticket.stock x) (stock body))
    (JS.or_default (Ticket.validityDays x) (validityDays body))
    (category body)
    (JS.or_default (Ticket.createdBy x) (createdBy body))
    (JS.or_default (Ticket.purchaseCount x) (purchaseCount body))
    (JS.or_default (Ticket.revenue x) (revenue body)).


Definition set_isAvailable (v : bool) (x : Ticket.t) : Ticket.t :=
  Ticket.mk (Ticket._id x) (Ticket.type x) (Ticket.description x)
    (Ticket.price x) v (Ticket.stock x) (Ticket.validityDays x)
    (Ticket.category x) (Ticket.createdBy x) (Ticket.purchaseCount x)
    (Ticket.revenue x).

(** [GET /api/tickets/:id]. *)
Definition get_one (id : string) : DB -> Http.Response Ticket.t * DB :=
  fun db =>
    match tickets db !! id with
    | None => (Http.failure 404 "Billet non trouvé", db)
    | Some ticket => (Http.mk 200 true None (Some ticket), db)
    end.

(** [POST /api/tickets], after authentication, the admin check and the
    validation of the body. *)
Definition create (id user : string) (body : Body)
  : DB -> Http.Response Ticket.t * DB :=
  fun db =>
    let ticket := new_ticket id user body in
    let saved := Doc.save Ticket._id (Doc.mkEnv ticket (tickets db)) in
    (Http.mk 201 true (Some "Billet créé avec succès")
       (Some (Doc.this (snd saved))),
     mkDB (Doc.collection (snd saved)) (purchases db)).

(** [PUT /api/tickets/:id]. *)
Definition update (id : string) (body : Body)
  : DB -> Http.Response Ticket.t * DB :=
  fun db =>
    match tickets db !! id with
    | None => (Http.failure 404 "Billet non trouvé", db)
    | Some ticket =>
      let updatedTicket := apply_body body ticket in
      (Http.mk 200 true (Some "Billet mis à jour avec succès")
         (Some updatedTicket),
       mkDB (<[id := updatedTicket]> (tickets db)) (purchases db))
    end.

(** [DELETE /api/tickets/:id]. *)
Definition remove (id : string) : DB -> Http.Response Ticket.t * DB :=
  fun db =>
    match tickets db !! id with
    | None => (Http.failure 404 "Billet non trouvé", db)
    | Some ticket =>
      (Http.mk 200 true (Some "Billet supprimé avec succès") None,
       mkDB (delete id (tickets db)) (purchases db))
    end.

(** [PATCH /api/tickets/:id/toggle-availability]. *)
Definition toggle_availability (id : string)
  : DB -> Http.Response Ticket.t * DB :=
  fun db =>
    match tickets db !! id with
    | None => (Http.failure 404 "Billet non trouvé", db)
    | Some ticket =>
      let ticket := set_isAvailable (negb (Ticket.isAvailable ticket)) ticket in
      let saved := Doc.save Ticket._id (Doc.mkEnv ticket (tickets db)) in
      let ticket := Doc.this (snd saved) in
      (Http.mk 200 true
         (Some ("Billet "
                ++ (if Ticket.isAvailable ticket then "activé" else "désactivé")
                ++ " avec succès"))
         (Some ticket),
       mkDB (Doc.collection (snd saved)) (purchases db))
    end.

Close Scope string_scope.

End TicketRoutes.

(** ** The read route of the purchases, and closed forms for the loops *)

Module PurchaseReads.

Import Routes.
Open Scope string_scope.

(** [GET /api/purchases/:id], after authentication and validation of the
    identifier. *)
Definition get_one (user id : string)
  : DB -> Http.Response Purchase.t * DB :=
  fun db =>
    match Purchase_findOne id user db with
    | (Next (Some purchase), db') =>
      (Http.mk 200 true None (Some purchase), db')
    | (Next None, db') => (Http.failure 404 "Achat non trouvé", db')
    | (Respond _, db') | (Throw _, db') =>
      (Http.failure 500 "Erreur lors de la récupération de l'achat", db')
    end.

Close Scope string_scope.

(** The record that a refund hands to [save()], in closed form. *)
Definition refunded_record (reason : option string) (x : Purchase.t)
  : Purchase.t :=
  Purchase.assign_notes
    (Purchase.annotate "Remboursé" (Purchase.notes x)
       (JS.or_default "" reason))
    (Purchase.set_status Purchase.refunded x).

(** The quantity that the recorded lines hold for the ticket [k]. *)
Definition demand (k : string) (its : list Purchase.Item) : Z :=
  fold_right
    (fun it acc =>
       if String.eqb (Purchase.ticketId it) k
       then Purchase.quantity it + acc else acc)
    0 its.

(** The quantity that the request lines ask for the ticket [k]. *)
Definition requested (k : string) (lines : list Req.Line) : Z :=
  fold_right
    (fun line acc =>
       if String.eqb (Req.ticketId line) k
       then Req.quantity line + acc else acc)
    0 lines.

(** The ticket after [reserveStock q], after [reserveStock q] followed by
    [updateStats q total], and after [releaseStock q], in closed form. *)
Definition reserved (q : Z) (tk : Ticket.t) : Ticket.t :=
  if Ticket.stock tk =? -1 then tk
  else if Ticket.stock tk >=? q
       then Ticket.set_stock (JS.round_int (Ticket.stock tk - q)) tk
       else tk.

Definition sold (q : Z) (line_total : float) (tk : Ticket.t) : Ticket.t :=
  Ticket.set_stats (JS.round_int (Ticket.purchaseCount (reserved q tk) + q))
    (Ticket.revenue (reserved q tk) + line_total)%float (reserved q tk).

Definition released (q : Z) (tk : Ticket.t) : Ticket.t :=
  if Ticket.stock tk =? -1 then tk
  else Ticket.set_stock (JS.round_int (Ticket.stock tk + q)) tk.

(** The stock counter is the sentinel or a natural number. *)
Definition stock_ok (tk : Ticket.t) : Prop :=
  Ticket.stock tk = -1 \/ 0 <= Ticket.stock tk.

(** No stored purchase carries the code. *)
Definition code_free (code : string) (coll : gmap string Purchase.t) : Prop :=
  forall (k : string) (p : Purchase.t),
    coll !! k = Some p -> Purchase.qrCode p <> code.

(** The notes of a request, once trimmed, fit the 500 code units. *)
Definition notes_fit (v : option string) : Prop :=
  match v with
  | None => True
  | Some s => JS.length (JS.trim s) <= 500
  end.

(** The store has nothing against any document, beyond the written rules. *)
Definition unopposed (accepts : Purchase.Acceptance)
  (coll : gmap string Purchase.t) : Prop :=
  forall p : Purchase.t, accepts p coll = true.

End PurchaseReads.

(** * Properties *)

(** ** Sample data *)

Module Sample.

Open Scope string_scope.

(** A ticket priced 1000 with five units in stock. *)
Definition ticket : Ticket.t :=
  Ticket.mk "t1" "Adulte" "Billet d'entrée adulte" 1000%float true 5 30
    Ticket.Entree "admin" 0 0%float.

Definition unlimited : Ticket.t := Ticket.set_stock (-1) ticket.

Definition buyer : Req.Customer :=
  Req.mkCustomer None "Awa" "Diop" "awa@example.org" None.

Definition request : Req.t :=
  Req.mk "u1"
    (Req.mkBody buyer [Req.mkLine "t1" 2] Purchase.card None)
    None None.

Definition too_many : Req.t :=
  Req.mk "u1"
    (Req.mkBody buyer [Req.mkLine "t1" 6] Purchase.card None)
    None None.

(** A store that checks nothing beyond the written rules. *)
Definition lenient : Purchase.Acceptance := fun _ _ => true.

Definition world : World :=
  mkWorld 1700000000000 [20; 3; 15; 9; 10]%N
    (fun text => JS.Resolved ("data:image/png;base64," ++ text))
    1700000000001 "p1" 1700000000002 lenient.

Definition db : Routes.DB := Routes.mkDB {[ "t1" := ticket ]} ∅.

(** A purchase as the POST route leaves it, and the same one confirmed
    but not yet open ([validFrom] in the future of the clock used below). *)
Definition purchase : Purchase.t :=
  Purchase.mk "p1" (Purchase.mkCustomer "u1" "Awa" "Diop" "awa@example.org" None)
    [Purchase.mkItem "t1" "Adulte" 2 1000%float 2000%float]
    2000%float 360%float 0%float 2360%float Purchase.pending
    "PUR1700000000000K3F9A" "data:image/png;base64,PUR1700000000000K3F9A"
    1700000000002 1700000000002 1702592000001 Purchase.card None None
    None None.

Definition confirmed : Purchase.t :=
  Purchase.set_status Purchase.confirmed purchase.

Close Scope string_scope.

End Sample.

(** ** Sample data for the ticket routes and the store effects *)

Module Scenario.

Open Scope string_scope.


(** A request whose customer object names another user. *)
Definition for_other : Req.t :=
  Req.mk "u1"
    (Req.mkBody (Req.mkCustomer (Some "u2") "Awa" "Diop" "awa@example.org" None)
       [Req.mkLine "t1" 1] Purchase.cash None)
    None None.

(** A world whose encoder fails. *)
Definition broken : World :=
  mkWorld 1700000000000 [20; 3; 15; 9; 10]%N
    (fun _ => JS.Rejected "encoding failed")
    1700000000001 "p1" 1700000000002 Sample.lenient.

(** The store after the sample purchase was made and confirmed. *)
Definition stored : Routes.DB :=
  Routes.mkDB {[ "t1" := PurchaseReads.sold 2 2000%float Sample.ticket ]}
    {[ "p1" := Sample.confirmed ]}.

(** The sample ticket with a stock of 2^53 + 2. *)
Definition large : Ticket.t :=
  Ticket.set_stock 9007199254740994 Sample.ticket.

(** A reason of 500 characters. *)
Definition long_reason : string :=
  Stdlib.Strings.String.string_of_list_ascii (List.repeat (Ascii.ascii_of_nat 120) 500).

Definition body : TicketRoutes.Body :=
  TicketRoutes.mkBody "Enfant" "Billet d'entrée enfant" 500%float
    Ticket.Entree None None None (Some "someone") None None.

Close Scope string_scope.

End Scenario.

(** ** Trimming *)

Lemma strip_graphic (b : bool) (a : Ascii.ascii) (rest : string) :
  JS.graphic a = true -> JS.strip b (String a rest) = String a rest.
Proof.
  unfold JS.graphic. intros Ha. apply andb_true_iff in Ha as [Hlo Hhi].
  simpl. unfold JS.ws1, JS.ws2, JS.ws3.
  replace ((9 <=? JS.byte a) && (JS.byte a <=? 13)) with false by lia.
  replace (JS.byte a =? 32) with false by lia. simpl.
  destruct rest as [|c rest]; [reflexivity|].
  replace (JS.byte a =? 194) with false by lia.
  replace (JS.byte a =? 160) with false by lia.
  rewrite andb_false_r. simpl. destruct b.
  - destruct rest as [|d rest]; [reflexivity|].
    replace (JS.byte a =? 128) with false by lia.
    replace (128 <=? JS.byte a) with false by lia.
    replace (JS.byte a =? 168) with false by lia.
    replace (JS.byte a =? 169) with false by lia.
    replace (JS.byte a =? 175) with false by lia.
    replace (JS.byte a =? 159) with false by lia.
    replace (JS.byte a =? 191) with false by lia.
    rewrite !andb_false_r. reflexivity.
  - destruct rest as [|d rest]; [reflexivity|].
    replace (JS.byte a =? 225) with false by lia.
    replace (JS.byte a =? 226) with false by lia.
    replace (JS.byte a =? 227) with false by lia.
    replace (JS.byte a =? 239) with false by lia.
    reflexivity.
Qed.

Lemma rev_app_rev_app (s1 s2 s3 : string) :
  String.rev_app (String.rev_app s1 s2) s3
  = String.rev_app s2 (String.app s1 s3).
Proof.
  revert s2 s3. induction s1 as [|a s1 IH]; intros s2 s3; simpl.
  - reflexivity.
  - rewrite IH. reflexivity.
Qed.

Lemma rev_rev (s : string) : String.rev (String.rev s) = s.
Proof.
  unfold String.rev. rewrite rev_app_rev_app. simpl.
  induction s as [|a s IH]; [reflexivity|].
  unfold String.app in *. simpl. rewrite IH. reflexivity.
Qed.

Lemma all_graphic_rev_app (s1 s2 : string) :
  JS.all_graphic (String.rev_app s1 s2)
  = JS.all_graphic s1 && JS.all_graphic s2.
Proof.
  revert s2. induction s1 as [|a s1 IH]; intros s2; simpl.
  - reflexivity.
  - rewrite IH. simpl. rewrite andb_assoc, (andb_comm (JS.graphic a)).
    reflexivity.
Qed.

Lemma all_graphic_app (s1 s2 : string) :
  JS.all_graphic (s1 ++ s2) = JS.all_graphic s1 && JS.all_graphic s2.
Proof.
  induction s1 as [|a s1 IH]; [reflexivity|].
  change (String a s1 ++ s2)%string with (String a (s1 ++ s2)).
  simpl. rewrite IH, andb_assoc. reflexivity.
Qed.

(** A string without white space is its own trimmed text. *)
Lemma trim_graphic (s : string) : JS.all_graphic s = true -> JS.trim s = s.
Proof.
  intros Hs. unfold JS.trim.
  assert (Hstrip : forall b t, JS.all_graphic t = true -> JS.strip b t = t).
  { intros b [|a rest]; [reflexivity|]. simpl JS.all_graphic.
    intros H. apply andb_true_iff in H as [Ha _].
    apply strip_graphic. exact Ha. }
  rewrite (Hstrip false s Hs), Hstrip.
  - apply rev_rev.
  - unfold String.rev. rewrite all_graphic_rev_app, Hs. reflexivity.
Qed.

Lemma pretty_N_char_graphic (d : N) : JS.graphic (pretty_N_char d) = true.
Proof.
  destruct d as [|p]; [reflexivity|].
  do 4 (try destruct p as [p|p|]; try reflexivity).
Qed.

Lemma pretty_N_go_graphic (x : N) (s : string) :
  JS.all_graphic s = true -> JS.all_graphic (pretty_N_go x s) = true.
Proof.
  revert s. induction (N.lt_wf_0 x) as [x _ IH]. intros s Hs.
  destruct (decide (0 < x)%N) as [Hpos|Hzero].
  - rewrite pretty_N_go_step by exact Hpos. apply IH.
    + apply N.div_lt; [exact Hpos | reflexivity].
    + simpl. rewrite pretty_N_char_graphic, Hs. reflexivity.
  - replace x with 0%N by lia. rewrite pretty_N_go_0. exact Hs.
Qed.

Lemma pretty_Z_graphic (z : Z) : JS.all_graphic (pretty z) = true.
Proof.
  assert (HN : forall p, JS.all_graphic (pretty (Npos p)) = true).
  { intros p. unfold pretty, pretty_N.
    destruct (decide (N.pos p = 0%N)); [reflexivity|].
    apply pretty_N_go_graphic. reflexivity. }
  destruct z as [|p|p]; [reflexivity | apply HN |].
  change (pretty (Z.neg p)) with ("-" ++ pretty (N.pos p))%string.
  rewrite all_graphic_app, HN. reflexivity.
Qed.

Lemma digit36_graphic (d : N) : JS.graphic (JS.digit36 d) = true.
Proof.
  unfold JS.digit36, JS.graphic, JS.byte.
  assert (Hd : (d mod 36 < 36)%N) by (apply N.mod_upper_bound; discriminate).
  set (m := (d mod 36)%N) in *. clearbody m.
  destruct (N.ltb_spec m 10) as [Hm|Hm];
    rewrite Ascii.N_ascii_embedding by lia;
    apply andb_true_iff; split; apply Z.ltb_lt; lia.
Qed.

(** ** Integers held in a Number *)

Lemma round_int_safe (z : Z) : JS.safe z -> JS.round_int z = z.
Proof.
  unfold JS.safe, JS.round_int. change (2 ^ 53) with 9007199254740992.
  intros Hz. destruct (Z.abs z <? 9007199254740992) eqn:E; [reflexivity|].
  assert (Hcases : z = 9007199254740992 \/ z = - 9007199254740992) by lia.
  destruct Hcases as [-> | ->]; vm_compute; reflexivity.
Qed.

Lemma round_int_nonneg (z : Z) : 0 <= z -> 0 <= JS.round_int z.
Proof.
  unfold JS.round_int. intros Hz.
  destruct (Z.abs z <? 2 ^ 53) eqn:E; [exact Hz|].
  assert (Hpos : 0 < z) by (change (2 ^ 53) with 9007199254740992 in E; lia).
  rewrite (Z.sgn_pos z Hpos), Z.mul_1_l.
  apply Z.shiftl_nonneg.
  assert (Hq : 0 <= Z.shiftr (Z.abs z) (Z.log2 (Z.abs z) - 52))
    by (apply Z.shiftr_nonneg; lia).
  destruct (_ || _); lia.
Qed.

(** ** Ticket inventory *)

Section TicketFacts.

Import Ticket.
Variable coll : gmap string Ticket.t.

Lemma set_stock_same (tk : Ticket.t) : set_stock (stock tk) tk = tk.
Proof. destruct tk; reflexivity. Qed.

Lemma set_stock_twice (v w : Z) (tk : Ticket.t) :
  set_stock v (set_stock w tk) = set_stock v tk.
Proof. reflexivity. Qed.

Lemma isAvailableForPurchase_value (tk : Ticket.t) (q : Z) :
  fst (isAvailableForPurchase q (Doc.mkEnv tk coll))
  = isAvailable tk && ((stock tk =? -1) || (q <=? stock tk)).
Proof.
  unfold isAvailableForPurchase, Doc.bind, Doc.self, Doc.ret; simpl.
  destruct (isAvailable tk); simpl; [|reflexivity].
  destruct (stock tk =? -1); simpl; [reflexivity|].
  unfold Z.geb, Z.leb. rewrite (Z.compare_antisym q (stock tk)).
  destruct (q ?= stock tk); reflexivity.
Qed.

Lemma isAvailableForPurchase_pure (tk : Ticket.t) (q : Z) :
  snd (isAvailableForPurchase q (Doc.mkEnv tk coll)) = Doc.mkEnv tk coll.
Proof.
  unfold isAvailableForPurchase, Doc.bind, Doc.self, Doc.ret; simpl.
  destruct (isAvailable tk); simpl; [|reflexivity].
  destruct (stock tk =? -1); reflexivity.
Qed.

(** C5: for a positive quantity, [isAvailableForPurchase] answers true
    exactly when the ticket is flagged available and its stock is
    unlimited or at least the quantity; it is false for an unavailable
    ticket and for a quantity above a limited stock; the call leaves the
    document and the collection as they were. *)
Theorem isAvailableForPurchase_spec (tk : Ticket.t) (q : Z) (Hq : 0 < q) :
  let e := Doc.mkEnv tk coll in
  (fst (isAvailableForPurchase q e) = true
     <-> isAvailable tk = true /\ (stock tk = -1 \/ q <= stock tk))
  /\ (isAvailable tk = false -> fst (isAvailableForPurchase q e) = false)
  /\ (stock tk <> -1 -> stock tk < q ->
      fst (isAvailableForPurchase q e) = false)
  /\ snd (isAvailableForPurchase q e) = e.
Proof.
  intros e; subst e. rewrite isAvailableForPurchase_value.
  repeat split.
  - apply andb_true_iff in H; tauto.
  - apply andb_true_iff in H as [_ H]. apply orb_true_iff in H.
    destruct H as [H|H]; [left; lia | right; lia].
  - intros [Ha [Hs|Hs]]; rewrite Ha; simpl; apply orb_true_iff.
    + left; lia.
    + right; lia.
  - intros ->; reflexivity.
  - intros Hne Hlt. apply andb_false_iff; right.
    apply orb_false_iff; split; lia.
  - apply isAvailableForPurchase_pure.
Qed.

(** C4: on a ticket with limited stock that covers the quantity, the
    quantity not negative and the stock at most 2^53 (where a Number
    holds every integer exactly), [reserveStock q] saves the decremented
    document and the following [releaseStock q] brings the document, and
    its stored copy, back to the original stock. *)
Theorem reserve_then_release_restores (tk : Ticket.t) (q : Z)
  (Hlimited : stock tk <> -1) (Henough : q <= stock tk)
  (Hq : 0 <= q) (Hsafe : stock tk <= 2 ^ 53) :
  let reserved := reserveStock q (Doc.mkEnv tk coll) in
  let released := releaseStock q (snd reserved) in
  fst reserved = Saved (set_stock (stock tk - q) tk)
  /\ stock (Doc.this (snd reserved)) = stock tk - q
  /\ fst released = Saved tk
  /\ Doc.this (snd released) = tk
  /\ stock (Doc.this (snd released)) = stock tk
  /\ Doc.collection (snd released) !! _id tk = Some tk.
Proof.
  intros reserved released; subst released reserved.
  unfold reserveStock, releaseStock, Doc.bind, Doc.self, Doc.update,
    Doc.save, Doc.ret; simpl.
  destruct (stock tk =? -1) eqn:E1; [lia|].
  destruct (stock tk >=? q) eqn:E2; [|lia]. simpl.
  assert (Hz : 2 ^ 53 = 9007199254740992) by reflexivity.
  rewrite (round_int_safe (stock tk - q)) by (unfold JS.safe; lia).
  destruct (stock tk - q =? -1) eqn:E3; [lia|]. simpl.
  replace (stock tk - q + q) with (stock tk) by lia.
  rewrite (round_int_safe (stock tk)) by (unfold JS.safe; lia).
  rewrite set_stock_twice, set_stock_same.
  repeat split; try reflexivity. apply lookup_insert_eq.
Qed.

(** C9: on a ticket whose stock is the unlimited sentinel -1, both
    [reserveStock] and [releaseStock] return [true] and change neither
    the document nor the collection, whatever the quantity. *)
Theorem unlimited_stock_untouched (tk : Ticket.t) (q : Z)
  (Hunlimited : stock tk = -1) :
  reserveStock q (Doc.mkEnv tk coll) = (Bool true, Doc.mkEnv tk coll)
  /\ releaseStock q (Doc.mkEnv tk coll) = (Bool true, Doc.mkEnv tk coll).
Proof.
  unfold reserveStock, releaseStock, Doc.bind, Doc.self, Doc.ret; simpl.
  rewrite Hunlimited; simpl. split; reflexivity.
Qed.

End TicketFacts.

Lemma isAvailableForPurchase_spec_witness :
  fst (Ticket.isAvailableForPurchase 2 (Doc.mkEnv Sample.ticket ∅)) = true
  /\ fst (Ticket.isAvailableForPurchase 6 (Doc.mkEnv Sample.ticket ∅)) = false.
Proof.
  split.
  - apply (isAvailableForPurchase_spec ∅ Sample.ticket 2); [lia|].
    split; [reflexivity | right; simpl; lia].
  - apply (isAvailableForPurchase_spec ∅ Sample.ticket 6); simpl; lia.
Defined.

Lemma reserve_then_release_restores_witness :
  Ticket.stock
    (Doc.this
       (snd (Ticket.releaseStock 2
               (snd (Ticket.reserveStock 2 (Doc.mkEnv Sample.ticket ∅))))))
  = 5.
Proof.
  apply (reserve_then_release_restores ∅ Sample.ticket 2); simpl; lia.
Defined.

(** C4, as the claim has it, fails: at a stock of 2^53 + 2,
    [reserveStock 1] stores 2^53 (the Number nearest to 2^53 + 1) and
    [releaseStock 1] stores 2^53 again, two short of the original stock. *)
Lemma reserve_then_release_drifts :
  Ticket.stock Scenario.large <> -1
  /\ 1 <= Ticket.stock Scenario.large
  /\ Ticket.stock Scenario.large = 9007199254740994
  /\ Ticket.stock
       (Doc.this
          (snd (Ticket.releaseStock 1
                  (snd (Ticket.reserveStock 1
                          (Doc.mkEnv Scenario.large ∅))))))
     = 9007199254740992.
Proof. repeat split; vm_compute; congruence. Qed.

Lemma unlimited_stock_untouched_witness :
  Ticket.reserveStock 7 (Doc.mkEnv Sample.unlimited ∅)
  = (Ticket.Bool true, Doc.mkEnv Sample.unlimited ∅).
Proof.
  apply (unlimited_stock_untouched ∅ Sample.unlimited 7); reflexivity.
Defined.

(** ** Purchase records *)

Section PurchaseFacts.

Import Purchase.
Variable coll : gmap string Purchase.t.

Lemma Status_eqb_eq (a b : Status) : Status_eqb a b = true <-> a = b.
Proof. destruct a, b; simpl; split; congruence. Qed.

Lemma Status_eqb_neq (a b : Status) : Status_eqb a b = false <-> a <> b.
Proof. destruct a, b; simpl; split; congruence. Qed.

Lemma validatePurchase_pure (now : Z) (p : Purchase.t) :
  snd (validatePurchase now (Doc.mkEnv p coll)) = Doc.mkEnv p coll.
Proof.
  unfold validatePurchase, Doc.bind, Doc.self, Doc.ret; simpl.
  destruct (Status_eqb (status p) confirmed); simpl; [|reflexivity].
  destruct (isExpired now p); reflexivity.
Qed.

Lemma validatePurchase_confirmed (now : Z) (p : Purchase.t) :
  status p = confirmed ->
  fst (validatePurchase now (Doc.mkEnv p coll))
  = if now >? validUntil p then Invalid "Achat expiré" else Valid p.
Proof.
  intros Hs.
  unfold validatePurchase, Doc.bind, Doc.self, Doc.ret, isExpired; simpl.
  rewrite Hs; simpl. destruct (now >? validUntil p); reflexivity.
Qed.

(** C2: [validatePurchase] answers invalid, with a reason, for a record
    that is not confirmed and for a confirmed record whose [validUntil] is
    strictly before the clock; it answers valid otherwise; it changes
    neither the record nor the collection, and calling it again gives the
    same answer. *)
Theorem validatePurchase_spec (now : Z) (p : Purchase.t) :
  let e := Doc.mkEnv p coll in
  (status p <> confirmed ->
     exists reason, fst (validatePurchase now e) = Invalid reason)
  /\ (status p = confirmed -> validUntil p < now ->
      exists reason, fst (validatePurchase now e) = Invalid reason)
  /\ (status p = confirmed -> now <= validUntil p ->
      fst (validatePurchase now e) = Valid p)
  /\ snd (validatePurchase now e) = e
  /\ validatePurchase now (snd (validatePurchase now e))
     = validatePurchase now e.
Proof.
  intros e; subst e. repeat split.
  - intros Hne. apply Status_eqb_neq in Hne.
    unfold validatePurchase, Doc.bind, Doc.self, Doc.ret; simpl.
    rewrite Hne; simpl. eexists; reflexivity.
  - intros Hs Hlt. rewrite (validatePurchase_confirmed _ _ Hs).
    destruct (now >? validUntil p) eqn:E; [eexists; reflexivity | lia].
  - intros Hs Hle. rewrite (validatePurchase_confirmed _ _ Hs).
    destruct (now >? validUntil p) eqn:E; [lia | reflexivity].
  - apply validatePurchase_pure.
  - rewrite validatePurchase_pure. reflexivity.
Qed.

(** C10: for a confirmed record whose [validUntil] is not before the
    clock, [validatePurchase] answers valid whatever [validFrom] holds, in
    particular when the clock is strictly before [validFrom], where the
    [isValid] virtual is false. *)
Theorem validatePurchase_ignores_validFrom (now : Z) (p : Purchase.t)
  (Hconfirmed : status p = confirmed) (Hopen : now <= validUntil p) :
  fst (validatePurchase now (Doc.mkEnv p coll)) = Valid p
  /\ (forall from : Z,
        fst (validatePurchase now (Doc.mkEnv (set_validFrom from p) coll))
        = Valid (set_validFrom from p))
  /\ (now < validFrom p -> isValid now p = false).
Proof.
  repeat split.
  - rewrite (validatePurchase_confirmed _ _ Hconfirmed).
    destruct (now >? validUntil p) eqn:E; [lia | reflexivity].
  - intros from. rewrite validatePurchase_confirmed by exact Hconfirmed.
    simpl. destruct (now >? validUntil p) eqn:E; [lia | reflexivity].
  - intros Hearly. unfold isValid.
    replace (validFrom p <=? now) with false by lia.
    rewrite andb_false_r. reflexivity.
Qed.

(** The record that a cancellation stores. *)
Lemma cancelPurchase_confirmed (accepts : Acceptance)
  (reason : option string) (p : Purchase.t) :
  status p = confirmed ->
  save_ok accepts coll (cancelled_record reason p) = true ->
  cancelPurchase accepts reason (Doc.mkEnv p coll)
  = (JS.Resolved (cancelled_record reason p),
     Doc.mkEnv (cancelled_record reason p)
       (<[_id p := cancelled_record reason p]> coll)).
Proof.
  intros Hs Hok.
  unfold cancelPurchase, Doc.bind, Doc.self, Doc.update, save, Doc.ret;
    simpl.
  rewrite Hs; simpl.
  change (assign_notes _ (set_status cancelled p))
    with (cancelled_record reason p).
  rewrite Hok. reflexivity.
Qed.

(** A cancellation that the save turns down: the document is changed in
    memory, the store is not. *)
Lemma cancelPurchase_unsaved (accepts : Acceptance)
  (reason : option string) (p : Purchase.t) :
  status p = confirmed ->
  save_ok accepts coll (cancelled_record reason p) = false ->
  cancelPurchase accepts reason (Doc.mkEnv p coll)
  = (JS.Rejected "Purchase validation failed",
     Doc.mkEnv (cancelled_record reason p) coll).
Proof.
  intros Hs Hok.
  unfold cancelPurchase, Doc.bind, Doc.self, Doc.update, save, Doc.ret;
    simpl.
  rewrite Hs; simpl.
  change (assign_notes _ (set_status cancelled p))
    with (cancelled_record reason p).
  rewrite Hok. reflexivity.
Qed.

Lemma cancelPurchase_rejected (accepts : Acceptance)
  (reason : option string) (p : Purchase.t) :
  status p <> confirmed ->
  cancelPurchase accepts reason (Doc.mkEnv p coll)
  = (JS.Rejected "Impossible d'annuler un achat non confirmé",
     Doc.mkEnv p coll).
Proof.
  intros Hs. apply Status_eqb_neq in Hs.
  unfold cancelPurchase, Doc.bind, Doc.self, Doc.ret; simpl.
  rewrite Hs. reflexivity.
Qed.

(** What the save of a purchase checks. *)
Lemma save_ok_spec (accepts : Acceptance) (p : Purchase.t) :
  save_ok accepts coll p = true
  <-> (forall s, notes p = Some s -> JS.length s <= 500)
      /\ accepts p coll = true.
Proof.
  unfold save_ok, notes_ok. rewrite andb_true_iff.
  destruct (notes p) as [s|].
  - rewrite Z.leb_le. split.
    + intros [Hn Ha]; split; [|exact Ha]. intros s' [= <-]; exact Hn.
    + intros [Hn Ha]; split; [apply Hn; reflexivity | exact Ha].
  - split.
    + intros [_ Ha]; split; [discriminate | exact Ha].
    + intros [_ Ha]; split; [reflexivity | exact Ha].
Qed.

(** C7: [cancelPurchase] resolves exactly when the record is confirmed
    and its save passes, that is when the new notes have at most 500 code
    units and the store accepts the record; the new notes are the trimmed
    text of the old notes, a line break and the reason after its label (the
    label and the reason alone when there were no notes), the status is
    cancelled and nothing else changes; a resolved call stores the record,
    a call turned down at the save leaves the store as it was and the
    document changed in memory; in every other status the call rejects and
    leaves the record and the collection as they were. *)
Theorem cancelPurchase_spec (accepts : Acceptance)
  (reason : option string) (p : Purchase.t) :
  let r := cancelPurchase accepts reason (Doc.mkEnv p coll) in
  let text := ("Annulé: " ++ JS.or_default "" reason)%string in
  let stored := JS.trim (if JS.truthy (notes p)
                         then JS.or_default "" (notes p)
                              ++ JS.newline ++ text
                         else text)%string in
  exists p',
    status p' = cancelled
    /\ notes p' = Some stored
    /\ set_status (status p) (set_notes (notes p) p') = p
    /\ ((exists doc, fst r = JS.Resolved doc)
        <-> status p = confirmed
            /\ JS.length stored <= 500 /\ accepts p' coll = true)
    /\ (status p = confirmed ->
        JS.length stored <= 500 -> accepts p' coll = true ->
        r = (JS.Resolved p', Doc.mkEnv p' (<[_id p := p']> coll)))
    /\ (status p = confirmed ->
        JS.length stored > 500 \/ accepts p' coll = false ->
        exists error, r = (JS.Rejected error, Doc.mkEnv p' coll))
    /\ (status p <> confirmed ->
        exists error, r = (JS.Rejected error, Doc.mkEnv p coll)).
Proof.
  intros r text stored; subst r.
  exists (cancelled_record reason p).
  assert (Hnotes : notes (cancelled_record reason p) = Some stored)
    by reflexivity.
  assert (Hok : save_ok accepts coll (cancelled_record reason p) = true
                <-> JS.length stored <= 500
                    /\ accepts (cancelled_record reason p) coll = true).
  { rewrite save_ok_spec, Hnotes. split.
    - intros [Hn Ha]; split; [apply Hn; reflexivity | exact Ha].
    - intros [Hn Ha]; split; [|exact Ha]. intros s [= <-]; exact Hn. }
  split; [reflexivity|]. split; [exact Hnotes|].
  split; [destruct p; reflexivity|].
  destruct (Status_eqb (status p) confirmed) eqn:E.
  - apply Status_eqb_eq in E.
    destruct (save_ok accepts coll (cancelled_record reason p)) eqn:S.
    + rewrite (cancelPurchase_confirmed _ _ _ E S).
      destruct Hok as [Hok _]. specialize (Hok eq_refl).
      split; [|split; [|split]].
      * split; [intros _; tauto | intros _; eexists; reflexivity].
      * intros _ _ _; reflexivity.
      * intros _ [Hlong | Hno]; [lia | destruct Hok; congruence].
      * intros Hne; contradiction.
    + rewrite (cancelPurchase_unsaved _ _ _ E S).
      split; [|split; [|split]].
      * split; [intros [doc Hdoc]; discriminate|].
        intros (_ & Hn & Ha).
        destruct Hok as [_ Hok]. specialize (Hok (conj Hn Ha)). discriminate.
      * intros _ Hn Ha.
        destruct Hok as [_ Hok]. specialize (Hok (conj Hn Ha)). discriminate.
      * intros _ _; eexists; reflexivity.
      * intros Hne; contradiction.
  - apply Status_eqb_neq in E. rewrite (cancelPurchase_rejected _ _ _ E).
    split; [|split; [|split]].
    + split; [intros [doc Hdoc]; discriminate | intros [Hs _]; contradiction].
    + intros Hs; contradiction.
    + intros Hs; contradiction.
    + intros _; eexists; reflexivity.
Qed.

End PurchaseFacts.

Lemma validatePurchase_spec_witness :
  (exists reason,
     fst (Purchase.validatePurchase 1700000000000
            (Doc.mkEnv Sample.purchase ∅)) = Purchase.Invalid reason)
  /\ fst (Purchase.validatePurchase 1700000000000
            (Doc.mkEnv Sample.confirmed ∅)) = Purchase.Valid Sample.confirmed.
Proof.
  split.
  - destruct (validatePurchase_spec ∅ 1700000000000 Sample.purchase)
      as (Hpending & _).
    apply Hpending. simpl; discriminate.
  - destruct (validatePurchase_spec ∅ 1700000000000 Sample.confirmed)
      as (_ & _ & Hvalid & _).
    apply Hvalid; [reflexivity | simpl; lia].
Defined.

Lemma cancelPurchase_spec_witness :
  exists p',
    Purchase.notes p' = Some "Annulé: doublon"%string
    /\ Purchase.cancelPurchase Sample.lenient (Some "doublon"%string)
         (Doc.mkEnv Sample.confirmed ∅)
       = (JS.Resolved p',
          Doc.mkEnv p' (<[Purchase._id Sample.confirmed := p']> ∅)).
Proof.
  destruct (cancelPurchase_spec ∅ Sample.lenient (Some "doublon"%string)
              Sample.confirmed)
    as (p' & _ & Hnotes & _ & _ & Hstored & _).
  exists p'. split; [exact Hnotes|].
  apply Hstored; [reflexivity | vm_compute; discriminate | reflexivity].
Defined.

(** C7, as the claim has it, fails: a confirmed record and a reason of
    500 characters; the notes would hold 508 code units, the save turns
    the record down, the call rejects and the stored record stays
    confirmed. *)
Lemma cancelPurchase_long_reason :
  Purchase.status Sample.confirmed = Purchase.confirmed
  /\ JS.length Scenario.long_reason = 500
  /\ exists error,
       Purchase.cancelPurchase Sample.lenient (Some Scenario.long_reason)
         (Doc.mkEnv Sample.confirmed (Routes.purchases Scenario.stored))
       = (JS.Rejected error,
          Doc.mkEnv
            (Purchase.cancelled_record (Some Scenario.long_reason)
               Sample.confirmed)
            (Routes.purchases Scenario.stored)).
Proof.
  split; [reflexivity|]. split; [vm_compute; reflexivity|].
  eexists.
  apply cancelPurchase_unsaved; [reflexivity | vm_compute; reflexivity].
Qed.

Lemma validatePurchase_ignores_validFrom_witness :
  fst (Purchase.validatePurchase 1700000000000 (Doc.mkEnv Sample.confirmed ∅))
  = Purchase.Valid Sample.confirmed
  /\ Purchase.isValid 1700000000000 Sample.confirmed = false.
Proof.
  destruct (validatePurchase_ignores_validFrom ∅ 1700000000000
              Sample.confirmed) as (Hv & _ & Hi).
  - reflexivity.
  - simpl; lia.
  - split; [exact Hv | apply Hi; simpl; lia].
Defined.

(** ** The purchase route *)

Section RouteFacts.

Import Routes PurchaseRoutes.

Lemma DB_eta (db : DB) : mkDB (tickets db) (purchases db) = db.
Proof. destruct db; reflexivity. Qed.

(** The code of a purchase has no white space: the trim setter of the
    path leaves it as it is. *)
Lemma purchaseId_trim (w : World) : JS.trim (purchaseId w) = purchaseId w.
Proof.
  apply trim_graphic. unfold purchaseId, random_suffix.
  rewrite !all_graphic_app, pretty_Z_graphic.
  change (JS.all_graphic "PUR") with true. cbn [andb].
  induction (firstn 5 (random_digits w)) as [|d ds IH]; [reflexivity|].
  cbn [map Stdlib.Strings.String.string_of_list_ascii JS.all_graphic].
  rewrite digit36_graphic, IH. reflexivity.
Qed.

Lemma created_code (w : World) (req : Req.t) (subtotal : float)
  (processed : list Purchase.Item) (image : string) :
  Purchase.qrCode (purchase_for w req subtotal processed image)
  = purchaseId w.
Proof. exact (purchaseId_trim w). Qed.

Lemma call_isAvailableForPurchase (tk : Ticket.t) (q : Z) (db : DB) :
  call_ticket tk (Ticket.isAvailableForPurchase q) db
  = (Next (available tk q, tk), db).
Proof.
  unfold call_ticket.
  pose proof (isAvailableForPurchase_value (tickets db) tk q) as Hv.
  pose proof (isAvailableForPurchase_pure (tickets db) tk q) as Hp.
  destruct (Ticket.isAvailableForPurchase q _) as [a e]; simpl in *.
  subst a e; simpl. rewrite DB_eta. reflexivity.
Qed.

Lemma check_lines_cons (line : Req.Line) (rest : list Req.Line)
  (subtotal : float) (processed : list Purchase.Item) (db : DB) :
  check_lines (line :: rest) subtotal processed db
  = match tickets db !! Req.ticketId line with
    | None =>
        (Respond (failure 400
           ("Billet avec l'ID " ++ Req.ticketId line ++ " non trouvé")%string),
         db)
    | Some tk =>
        if available tk (Req.quantity line) then
          check_lines rest
            (subtotal + Purchase.totalPrice (line_item tk line))%float
            (processed ++ [line_item tk line]) db
        else
          (Respond (failure 400
             ("Billet " ++ dquote ++ Ticket.type tk ++ dquote
              ++ " non disponible en quantité "
              ++ pretty (Req.quantity line))%string), db)
    end.
Proof.
  simpl. unfold bind at 1, Ticket_findById.
  destruct (tickets db !! Req.ticketId line) as [tk|]; [|reflexivity].
  unfold bind at 1. rewrite call_isAvailableForPurchase. simpl.
  destruct (available tk (Req.quantity line)); reflexivity.
Qed.

Lemma check_lines_nil (subtotal : float) (processed : list Purchase.Item)
  (db : DB) :
  check_lines [] subtotal processed db = (Next (subtotal, processed), db).
Proof. reflexivity. Qed.

(** The first loop never writes. *)
Lemma check_lines_frame (lines : list Req.Line) (subtotal : float)
  (processed : list Purchase.Item) (db : DB) :
  snd (check_lines lines subtotal processed db) = db.
Proof.
  revert subtotal processed.
  induction lines as [|line rest IH]; intros subtotal processed.
  - reflexivity.
  - rewrite check_lines_cons.
    destruct (tickets db !! Req.ticketId line) as [tk|]; [|reflexivity].
    destruct (available tk (Req.quantity line)); [apply IH | reflexivity].
Qed.

(** The first loop never throws, and every early response is a 400. *)
Lemma check_lines_outcome (lines : list Req.Line) (subtotal : float)
  (processed : list Purchase.Item) (db : DB) :
  match fst (check_lines lines subtotal processed db) with
  | Next _ => True
  | Respond r => status r = 400 /\ success r = false /\ data r = None
  | Throw _ => False
  end.
Proof.
  revert subtotal processed.
  induction lines as [|line rest IH]; intros subtotal processed.
  - exact I.
  - rewrite check_lines_cons.
    destruct (tickets db !! Req.ticketId line) as [tk|]; [|simpl; auto].
    destruct (available tk (Req.quantity line)); [apply IH | simpl; auto].
Qed.

(** A line that asks for more than a limited stock stops the first loop. *)
Lemma check_lines_short (lines : list Req.Line) (subtotal : float)
  (processed : list Purchase.Item) (db : DB) (line : Req.Line)
  (tk : Ticket.t) :
  In line lines ->
  tickets db !! Req.ticketId line = Some tk ->
  Ticket.stock tk <> -1 -> Ticket.stock tk < Req.quantity line ->
  exists r, fst (check_lines lines subtotal processed db) = Respond r.
Proof.
  intros Hin Hfound Hlimited Hshort. revert subtotal processed.
  induction lines as [|l rest IH]; intros subtotal processed.
  - destruct Hin.
  - rewrite check_lines_cons. destruct Hin as [->|Hin].
    + rewrite Hfound. unfold available.
      replace (Ticket.stock tk =? -1) with false by lia.
      replace (Req.quantity line <=? Ticket.stock tk) with false by lia.
      rewrite andb_false_r. eexists; reflexivity.
    + destruct (tickets db !! Req.ticketId l) as [tk'|];
        [|eexists; reflexivity].
      destruct (available tk' (Req.quantity l));
        [apply IH; exact Hin | eexists; reflexivity].
Qed.

(** What the first loop hands over when it completes: one recorded line per
    request line, in order, and the running sum of their totals. *)
Lemma check_lines_result (lines : list Req.Line) (subtotal : float)
  (processed : list Purchase.Item) (db : DB) (s : float)
  (out : list Purchase.Item) :
  fst (check_lines lines subtotal processed db) = Next (s, out) ->
  exists added,
    out = processed ++ added
    /\ Forall2 (fun line it =>
                 exists tk, tickets db !! Req.ticketId line = Some tk
                            /\ available tk (Req.quantity line) = true
                            /\ it = line_item tk line) lines added
    /\ s = fold_left (fun acc it => (acc + Purchase.totalPrice it)%float)
                     added subtotal.
Proof.
  revert subtotal processed.
  induction lines as [|line rest IH]; intros subtotal processed Hrun.
  - simpl in Hrun. injection Hrun as <- <-. exists [].
    rewrite app_nil_r. repeat split. constructor.
  - rewrite check_lines_cons in Hrun.
    destruct (tickets db !! Req.ticketId line) as [tk|] eqn:Hfound;
      [|discriminate].
    destruct (available tk (Req.quantity line)) eqn:Hav; [|discriminate].
    destruct (IH _ _ Hrun) as (added & -> & Hall & ->).
    exists (line_item tk line :: added). repeat split.
    + rewrite <- app_assoc. reflexivity.
    + constructor; [|exact Hall]. exists tk. auto.
Qed.

(** A ticket method call goes on, and writes tickets only. *)
Lemma call_ticket_next {A : Type} (tk : Ticket.t) (m : Doc.M Ticket.t A)
  (db : DB) :
  exists a tk' coll',
    call_ticket tk m db = (Next (a, tk'), mkDB coll' (purchases db)).
Proof.
  unfold call_ticket. destruct (m _) as [a e].
  exists a, (Doc.this e), (Doc.collection e). reflexivity.
Qed.

(** The second loop writes tickets only. *)
Lemma commit_stock_purchases (its : list Purchase.Item) (db : DB) :
  purchases (snd (commit_stock its db)) = purchases db.
Proof.
  revert db. induction its as [|it rest IH]; intros db.
  - reflexivity.
  - simpl. unfold bind at 1, Ticket_findById.
    destruct (tickets db !! Purchase.ticketId it) as [tk|]; [|reflexivity].
    unfold bind at 1.
    destruct (call_ticket_next tk
                (Ticket.reserveStock (Purchase.quantity it)) db)
      as (a & tk1 & c1 & ->).
    cbv beta iota zeta; cbn [fst snd]. unfold bind at 1.
    destruct (call_ticket_next tk1
                (Ticket.updateStats (Purchase.quantity it)
                   (Purchase.totalPrice it)) (mkDB c1 (purchases db)))
      as (a2 & tk2 & c2 & ->).
    cbv beta iota zeta. rewrite IH. reflexivity.
Qed.

(** The second loop sends no response of its own. *)
Lemma commit_stock_outcome (its : list Purchase.Item) (db : DB)
  (r : Response) :
  fst (commit_stock its db) <> Respond r.
Proof.
  revert db. induction its as [|it rest IH]; intros db.
  - discriminate.
  - simpl. unfold bind at 1, Ticket_findById.
    destruct (tickets db !! Purchase.ticketId it) as [tk|]; [|discriminate].
    unfold bind at 1.
    destruct (call_ticket_next tk
                (Ticket.reserveStock (Purchase.quantity it)) db)
      as (a & tk1 & c1 & ->).
    cbv beta iota zeta; cbn [fst snd]. unfold bind at 1.
    destruct (call_ticket_next tk1
                (Ticket.updateStats (Purchase.quantity it)
                   (Purchase.totalPrice it)) (mkDB c1 (purchases db)))
      as (a2 & tk2 & c2 & ->).
    cbv beta iota zeta. apply IH.
Qed.

(** [create], by cases on its three stages. *)
Lemma create_eq (w : World) (req : Req.t) (db : DB) :
  create w req db
  = let oops := failure 500 "Erreur lors de la création de l'achat" in
    match fst (check_lines (Req.items (Req.body req)) 0%float [] db) with
    | Next (subtotal, processed) =>
      match toDataURL w (purchaseId w) with
      | JS.Resolved image =>
        let p := purchase_for w req subtotal processed image in
        if Purchase.insert_ok (store_accepts w) (purchases db) p then
          let committed :=
            commit_stock processed
              (mkDB (tickets db) (<[new_id w := p]> (purchases db))) in
          match fst committed with
          | Next _ =>
            (mkResponse 201 true "Achat créé avec succès" (Some p),
             snd committed)
          | Respond r => (r, snd committed)
          | Throw _ => (oops, snd committed)
          end
        else (oops, db)
      | JS.Rejected _ => (oops, db)
      end
    | Respond r => (r, db)
    | Throw _ => (oops, db)
    end.
Proof.
  unfold create, try_catch, create_body, bind.
  pose proof (check_lines_frame (Req.items (Req.body req)) 0%float [] db) as Hf.
  destruct (check_lines _ _ _ db) as [[[subtotal processed]|r|e] db1];
    simpl in Hf; subst db1; cbn [fst snd]; try reflexivity.
  destruct (toDataURL w (purchaseId w)) as [image|e]; [|reflexivity].
  cbn [await ret fst snd]. cbv zeta.
  fold (purchase_for w req subtotal processed image).
  unfold call_purchase, Purchase.save_new.
  cbn [Doc.this Doc.collection].
  destruct (Purchase.insert_ok _ _ _).
  - cbn [await ret Doc.this Doc.collection fst snd].
    change (Purchase._id (purchase_for w req subtotal processed image))
      with (new_id w).
    destruct (commit_stock processed _) as [[[]|r|e] db3]; reflexivity.
  - cbn [await throw Doc.this Doc.collection fst snd].
    rewrite DB_eta. reflexivity.
Qed.

(** The only way [create] answers with a record: the first loop completed,
    the encoding resolved, the save passed, the record was inserted and the
    second loop ran to its end. *)
Lemma create_success (w : World) (req : Req.t) (db : DB) (p : Purchase.t) :
  data (fst (create w req db)) = Some p ->
  exists subtotal processed image,
    fst (check_lines (Req.items (Req.body req)) 0%float [] db)
    = Next (subtotal, processed)
    /\ toDataURL w (purchaseId w) = JS.Resolved image
    /\ p = purchase_for w req subtotal processed image
    /\ Purchase.insert_ok (store_accepts w) (purchases db) p = true
    /\ fst (create w req db)
       = mkResponse 201 true "Achat créé avec succès" (Some p)
    /\ snd (create w req db)
       = snd (commit_stock processed
                (mkDB (tickets db) (<[new_id w := p]> (purchases db)))).
Proof.
  rewrite create_eq. cbv zeta.
  pose proof (check_lines_outcome (Req.items (Req.body req)) 0%float [] db)
    as Ho.
  destruct (fst (check_lines _ _ _ db)) as [[subtotal processed]|r|e].
  - destruct (toDataURL w (purchaseId w)) as [image|e];
      [|simpl; discriminate].
    destruct (Purchase.insert_ok _ _ _) eqn:Hsave; [|simpl; discriminate].
    pose proof (commit_stock_outcome processed
      (mkDB (tickets db)
         (<[new_id w := purchase_for w req subtotal processed image]>
            (purchases db)))) as Hc.
    destruct (fst (commit_stock processed _)) as [[]|r|e].
    + simpl. intros [= <-]. exists subtotal, processed, image.
      repeat split. exact Hsave.
    + exfalso. apply (Hc r). reflexivity.
    + simpl; discriminate.
  - destruct Ho as (_ & _ & Hd). simpl. rewrite Hd. discriminate.
  - destruct Ho.
Qed.

End RouteFacts.

Section PurchaseRouteTheorems.

Import Routes PurchaseRoutes.

(** The second loop on the single line of the scenario: the stock of the
    ticket goes down by the quantity. *)
Lemma commit_stock_single (tk : Ticket.t) (line : Req.Line) (db : DB) :
  tickets db !! Ticket._id tk = Some tk ->
  Ticket.stock tk <> -1 -> Req.quantity line <= Ticket.stock tk ->
  0 <= Req.quantity line -> Ticket.stock tk <= 2 ^ 53 ->
  exists tk',
    commit_stock [line_item tk line] db
    = (Next tt, mkDB (<[Ticket._id tk := tk']> (<[Ticket._id tk :=
         Ticket.set_stock (Ticket.stock tk - Req.quantity line) tk]>
           (tickets db))) (purchases db))
    /\ Ticket.stock tk' = Ticket.stock tk - Req.quantity line.
Proof.
  intros Hfound Hlimited Henough Hq Hsafe.
  assert (Hround : JS.round_int (Ticket.stock tk - Req.quantity line)
                   = Ticket.stock tk - Req.quantity line).
  { apply round_int_safe. unfold JS.safe.
    change (2 ^ 53) with 9007199254740992 in *. lia. }
  eexists. split.
  - simpl. unfold bind, Ticket_findById, call_ticket; simpl.
    rewrite Hfound.
    unfold Ticket.reserveStock, Ticket.updateStats, Doc.bind, Doc.self,
      Doc.update, Doc.save, Doc.ret; simpl.
    replace (Ticket.stock tk =? -1) with false by lia.
    replace (Ticket.stock tk >=? Req.quantity line) with true by lia.
    simpl. rewrite Hround. reflexivity.
  - reflexivity.
Qed.

(** A code that no stored purchase carries is not taken. *)
Lemma code_taken_free (code : string) (coll : gmap string Purchase.t) :
  PurchaseReads.code_free code coll -> Purchase.code_taken code coll = false.
Proof.
  intros Hfree. unfold Purchase.code_taken.
  destruct (existsb _ _) eqn:E; [|reflexivity].
  apply existsb_exists in E as ([k p] & Hin & Heq).
  apply list_elem_of_In, elem_of_map_to_list in Hin.
  apply String.eqb_eq in Heq. destruct (Hfree k p Hin Heq).
Qed.

(** The save of the new purchase passes when the trimmed notes of the
    request fit, the code is new to the store and the store has nothing
    else against the record. *)
Lemma insert_ok_intro (w : World) (req : Req.t)
  (coll : gmap string Purchase.t) (subtotal : float)
  (processed : list Purchase.Item) (image : string) :
  PurchaseReads.notes_fit (Req.notes (Req.body req)) ->
  PurchaseReads.code_free (purchaseId w) coll ->
  PurchaseReads.unopposed (store_accepts w) coll ->
  Purchase.insert_ok (store_accepts w) coll
    (purchase_for w req subtotal processed image) = true.
Proof.
  intros Hnotes Hfree Hstore.
  unfold Purchase.insert_ok, Purchase.save_ok.
  rewrite Hstore, andb_true_r.
  rewrite created_code, (code_taken_free _ _ Hfree). cbn [negb andb].
  unfold Purchase.notes_ok.
  change (Purchase.notes (purchase_for w req subtotal processed image))
    with (Purchase.trim_setter (Req.notes (Req.body req))).
  unfold PurchaseReads.notes_fit in Hnotes.
  destruct (Req.notes (Req.body req)) as [text|]; [|reflexivity].
  cbn [Purchase.trim_setter]. apply Z.leb_le. exact Hnotes.
Qed.

Lemma well_keyed_insert (coll : gmap string Ticket.t) (tk : Ticket.t) :
  well_keyed coll -> well_keyed (<[Ticket._id tk := tk]> coll).
Proof.
  intros Hwk k tk' Hlook.
  destruct (decide (Ticket._id tk = k)) as [<-|Hne].
  - rewrite lookup_insert_eq in Hlook. congruence.
  - rewrite lookup_insert_ne in Hlook by exact Hne. apply (Hwk _ _ Hlook).
Qed.

Lemma is_Some_insert (coll : gmap string Ticket.t) (k k' : string)
  (tk : Ticket.t) :
  is_Some (coll !! k') -> is_Some (<[k := tk]> coll !! k').
Proof.
  intros Hsome. destruct (decide (k = k')) as [<-|Hne].
  - rewrite lookup_insert_eq. eexists; reflexivity.
  - rewrite lookup_insert_ne by exact Hne. exact Hsome.
Qed.

(** One turn of the second loop: both calls go on, and the tickets
    collection only receives documents of the same identifier. *)
Lemma commit_step (tk : Ticket.t) (q : Z) (line_total : float) (db : DB) :
  exists a tk1 tk2 c1,
    call_ticket tk (Ticket.reserveStock q) db
    = (Next (a, tk1), mkDB c1 (purchases db))
    /\ call_ticket tk1 (Ticket.updateStats q line_total)
         (mkDB c1 (purchases db))
       = (Next (tk2, tk2),
          mkDB (<[Ticket._id tk := tk2]> c1) (purchases db))
    /\ (c1 = tickets db
        \/ exists tk', Ticket._id tk' = Ticket._id tk
                       /\ c1 = <[Ticket._id tk := tk']> (tickets db))
    /\ Ticket._id tk2 = Ticket._id tk.
Proof.
  unfold call_ticket, Ticket.reserveStock, Ticket.updateStats, Doc.bind,
    Doc.self, Doc.update, Doc.save, Doc.ret; simpl.
  destruct (Ticket.stock tk =? -1); simpl.
  - do 4 eexists. split; [reflexivity|]. split; [reflexivity|].
    split; [left; reflexivity | reflexivity].
  - destruct (Ticket.stock tk >=? q); simpl.
    + do 4 eexists. split; [reflexivity|]. split; [reflexivity|].
      split; [|reflexivity]. right.
      exists (Ticket.set_stock (JS.round_int (Ticket.stock tk - q)) tk).
      split; reflexivity.
    + do 4 eexists. split; [reflexivity|]. split; [reflexivity|].
      split; [left; reflexivity | reflexivity].
Qed.

(** On a well-keyed store that holds every recorded ticket, the second
    loop runs to its end. *)
Lemma commit_stock_runs (its : list Purchase.Item) (db : DB) :
  well_keyed (tickets db) ->
  Forall (fun it => is_Some (tickets db !! Purchase.ticketId it)) its ->
  fst (commit_stock its db) = Next tt.
Proof.
  revert db. induction its as [|it rest IH]; intros db Hwk Hall.
  - reflexivity.
  - inversion Hall as [|? ? [tk Hfound] Hrest]; subst.
    simpl. unfold bind at 1, Ticket_findById. rewrite Hfound.
    destruct (commit_step tk (Purchase.quantity it) (Purchase.totalPrice it)
                db) as (a & tk1 & tk2 & c1 & Hr & Hu & Hc1 & Hid).
    unfold bind at 1. rewrite Hr. cbv beta iota zeta; cbn [fst snd].
    unfold bind at 1. rewrite Hu. cbv beta iota zeta.
    apply IH; cbn [tickets].
    + rewrite <- Hid. apply well_keyed_insert.
      destruct Hc1 as [->|(tk' & Hid' & ->)]; [exact Hwk|].
      rewrite <- Hid'. apply well_keyed_insert. exact Hwk.
    + eapply Forall_impl; [exact Hrest|]. intros it' Hsome; simpl in *.
      apply is_Some_insert.
      destruct Hc1 as [->|(tk' & _ & ->)]; [exact Hsome|].
      apply is_Some_insert. exact Hsome.
Qed.

(** On valid lines the first loop completes. *)
Lemma check_lines_completes (lines : list Req.Line) (subtotal : float)
  (processed : list Purchase.Item) (db : DB) :
  Forall (valid_line (tickets db)) lines ->
  exists s out, fst (check_lines lines subtotal processed db) = Next (s, out).
Proof.
  intros Hall. revert subtotal processed.
  induction Hall as [|line rest (tk & Hfound & Hav) _ IH];
    intros subtotal processed.
  - do 2 eexists; reflexivity.
  - rewrite check_lines_cons, Hfound, Hav. apply IH.
Qed.

(** On a well-keyed store, a request whose lines are all valid, whose
    code can be encoded and whose record passes the save is answered with a
    created record. *)
Lemma create_succeeds (w : World) (req : Req.t) (db : DB) (image : string) :
  well_keyed (tickets db) ->
  Forall (valid_line (tickets db)) (Req.items (Req.body req)) ->
  toDataURL w (purchaseId w) = JS.Resolved image ->
  PurchaseReads.notes_fit (Req.notes (Req.body req)) ->
  PurchaseReads.code_free (purchaseId w) (purchases db) ->
  PurchaseReads.unopposed (store_accepts w) (purchases db) ->
  exists p,
    fst (create w req db)
    = mkResponse 201 true "Achat créé avec succès" (Some p).
Proof.
  intros Hwk Hall Himg Hnotes Hfree Hstore.
  destruct (check_lines_completes _ 0%float [] db Hall) as (s & out & Hrun).
  destruct (check_lines_result _ _ _ _ _ _ Hrun) as (added & Hout & Hrec & _).
  simpl in Hout; subst added.
  rewrite create_eq, Hrun, Himg. cbv zeta.
  rewrite (insert_ok_intro w req _ s out image Hnotes Hfree Hstore).
  rewrite commit_stock_runs; cbn [tickets].
  - eexists; reflexivity.
  - exact Hwk.
  - clear Hrun. induction Hrec as [|line it ? ? (tk & Hfound & _ & ->) _ IH];
      constructor.
    + simpl. rewrite (Hwk _ _ Hfound), Hfound. eexists; reflexivity.
    + apply IH. inversion Hall; assumption.
Qed.

(** C3: on a store where every ticket is kept under its identifier, a
    request whose lines are all available, whose code can be encoded and
    whose record passes the save (trimmed notes of at most 500 code units,
    a code new to the store, nothing else held against the record) is
    answered with a created purchase.  A purchase that is created
    records, for each request line in order, the ticket's price as unit
    price, the requested quantity and their product as line total; its
    subtotal is the sum of the line totals,
    its tax the subtotal times 0.18, its discount zero and its total the
    subtotal plus the tax.  Buying 2 of an available ticket priced 1000
    with 5 in stock, when the record passes the save, gives subtotal 2000,
    tax 360, total 2360 and leaves the ticket with 3 in stock. *)
Theorem purchase_totals :
  (forall (w : World) (req : Req.t) (db : DB) (image : string),
     well_keyed (tickets db) ->
     Forall (valid_line (tickets db)) (Req.items (Req.body req)) ->
     toDataURL w (purchaseId w) = JS.Resolved image ->
     PurchaseReads.notes_fit (Req.notes (Req.body req)) ->
     PurchaseReads.code_free (purchaseId w) (purchases db) ->
     PurchaseReads.unopposed (store_accepts w) (purchases db) ->
     exists p,
       fst (create w req db)
       = mkResponse 201 true "Achat créé avec succès" (Some p))
  /\ (forall (w : World) (req : Req.t) (db : DB) (p : Purchase.t),
     data (fst (create w req db)) = Some p ->
     Forall2 (fun line it =>
                exists tk,
                  tickets db !! Req.ticketId line = Some tk
                  /\ Purchase.ticketId it = Ticket._id tk
                  /\ Purchase.quantity it = Req.quantity line
                  /\ Purchase.unitPrice it = Ticket.price tk
                  /\ Purchase.totalPrice it
                     = (Purchase.unitPrice it
                        * JS.number_of_Z (Purchase.quantity it))%float)
             (Req.items (Req.body req)) (Purchase.items p)
     /\ Purchase.subtotal p
        = fold_left (fun acc it => (acc + Purchase.totalPrice it)%float)
                    (Purchase.items p) 0%float
     /\ Purchase.tax p = (Purchase.subtotal p * 0.18)%float
     /\ Purchase.discount p = 0%float
     /\ Purchase.total p = (Purchase.subtotal p + Purchase.tax p)%float)
  /\ (forall (w : World) (req : Req.t) (db : DB) (tk : Ticket.t)
             (image : string),
        Req.items (Req.body req) = [Req.mkLine (Ticket._id tk) 2] ->
        tickets db !! Ticket._id tk = Some tk ->
        Ticket.isAvailable tk = true ->
        Ticket.price tk = 1000%float ->
        Ticket.stock tk = 5 ->
        toDataURL w (purchaseId w) = JS.Resolved image ->
        PurchaseReads.notes_fit (Req.notes (Req.body req)) ->
        PurchaseReads.code_free (purchaseId w) (purchases db) ->
        PurchaseReads.unopposed (store_accepts w) (purchases db) ->
        exists p tk',
          fst (create w req db)
          = mkResponse 201 true "Achat créé avec succès" (Some p)
          /\ Purchase.subtotal p = 2000%float
          /\ Purchase.tax p = 360%float
          /\ Purchase.total p = 2360%float
          /\ tickets (snd (create w req db)) !! Ticket._id tk = Some tk'
          /\ Ticket.stock tk' = 3)
  /\ (forall (w : World) (req : Req.t) (db : DB) (tk : Ticket.t)
             (p : Purchase.t),
        Req.items (Req.body req) = [Req.mkLine (Ticket._id tk) 2] ->
        tickets db !! Ticket._id tk = Some tk ->
        Ticket.price tk = 1000%float ->
        Ticket.stock tk = 5 ->
        data (fst (create w req db)) = Some p ->
        Purchase.subtotal p = 2000%float
        /\ Purchase.tax p = 360%float
        /\ Purchase.total p = 2360%float
        /\ exists tk',
             tickets (snd (create w req db)) !! Ticket._id tk = Some tk'
             /\ Ticket.stock tk' = 3).
Proof.
  split; [|split; [|split]].
  - intros w req db image. apply create_succeeds.
  - intros w req db p Hdata.
    destruct (create_success w req db p Hdata)
      as (subtotal & processed & image & Hrun & _ & -> & _ & _ & _).
    destruct (check_lines_result _ _ _ _ _ _ Hrun)
      as (added & Hout & Hall & Hsum).
    simpl in Hout; subst processed. simpl. repeat split.
    + clear Hrun Hsum Hdata.
      induction Hall as [|line it lines its (tk & Hfound & _ & ->) _ IH];
        constructor; [|exact IH].
      exists tk. repeat split. exact Hfound.
    + exact Hsum.
  - intros w req db tk image Hitems Hfound Havail Hprice Hstock Himg
      Hnotes Hfree Hstore.
    set (line := Req.mkLine (Ticket._id tk) 2) in *.
    assert (Hav : available tk (Req.quantity line) = true)
      by (unfold available; rewrite Havail, Hstock; reflexivity).
    rewrite create_eq, Hitems, check_lines_cons.
    change (Req.ticketId line) with (Ticket._id tk).
    rewrite Hfound, Hav, check_lines_nil. cbn [fst snd app].
    rewrite Himg. cbv zeta.
    rewrite (insert_ok_intro w req _ _ _ image Hnotes Hfree Hstore).
    set (p := purchase_for w req _ _ image).
    destruct (commit_stock_single tk line
                (mkDB (tickets db) (<[new_id w := p]> (purchases db))))
      as (tk' & Hcommit & Hstock');
      [exact Hfound | lia | rewrite Hstock; simpl; lia | simpl; lia
      | rewrite Hstock; vm_compute; discriminate |].
    rewrite Hcommit. cbn [fst snd tickets].
    exists p, tk'. subst p.
    unfold purchase_for, new_purchase, Purchase.new, line_item, TVA.
    cbn [Purchase.subtotal Purchase.tax Purchase.total Purchase.totalPrice
         JS.or_default Purchase.f_subtotal Purchase.f_tax Purchase.f_total].
    rewrite Hprice. repeat split.
    + apply lookup_insert_eq.
    + rewrite Hstock', Hstock. reflexivity.
  - intros w req db tk p Hitems Hfound Hprice Hstock Hdata.
    destruct (create_success w req db p Hdata)
      as (subtotal & processed & image & Hrun & _ & -> & _ & _ & Hdb).
    set (line := Req.mkLine (Ticket._id tk) 2) in *.
    rewrite Hitems, check_lines_cons in Hrun.
    change (Req.ticketId line) with (Ticket._id tk) in Hrun.
    rewrite Hfound in Hrun.
    destruct (available tk (Req.quantity line)); [|discriminate].
    rewrite check_lines_nil in Hrun. cbn [fst app] in Hrun.
    injection Hrun as <- <-.
    match type of Hdb with
    | _ = snd (commit_stock _ ?d) =>
      destruct (commit_stock_single tk line d) as (tk' & Hcommit & Hstock');
        [exact Hfound | lia | rewrite Hstock; simpl; lia | simpl; lia
        | rewrite Hstock; vm_compute; discriminate |]
    end.
    rewrite Hdb, Hcommit. cbn [fst snd tickets].
    unfold purchase_for, new_purchase, Purchase.new, line_item, TVA.
    cbn [Purchase.subtotal Purchase.tax Purchase.total Purchase.totalPrice
         JS.or_default Purchase.f_subtotal Purchase.f_tax Purchase.f_total].
    rewrite Hprice. repeat split.
    exists tk'. split; [apply lookup_insert_eq|].
    rewrite Hstock', Hstock. reflexivity.
Qed.

Lemma purchase_totals_witness :
  (exists p,
     data (fst (create Sample.world Sample.request Sample.db)) = Some p
     /\ Purchase.total p = (Purchase.subtotal p + Purchase.tax p)%float)
  /\ (exists p tk',
        fst (create Sample.world Sample.request Sample.db)
        = mkResponse 201 true "Achat créé avec succès" (Some p)
        /\ Purchase.subtotal p = 2000%float
        /\ Purchase.tax p = 360%float
        /\ Purchase.total p = 2360%float
        /\ tickets (snd (create Sample.world Sample.request Sample.db))
           !! "t1" = Some tk'
        /\ Ticket.stock tk' = 3).
Proof.
  destruct purchase_totals as (_ & Hgeneral & Hscenario & _).
  assert (Hfree : PurchaseReads.code_free (purchaseId Sample.world)
                    (purchases Sample.db)).
  { intros k p Hlook. unfold Sample.db in Hlook; cbn [purchases] in Hlook.
    rewrite lookup_empty in Hlook. discriminate. }
  assert (Hsecond := Hscenario Sample.world Sample.request Sample.db
                       Sample.ticket _ eq_refl eq_refl eq_refl eq_refl
                       eq_refl eq_refl I Hfree (fun _ => eq_refl)).
  split; [|exact Hsecond].
  destruct Hsecond as (p & tk' & Hresp & _).
  exists p. assert (Hdata :
    data (fst (create Sample.world Sample.request Sample.db)) = Some p)
    by (rewrite Hresp; reflexivity).
  split; [exact Hdata|].
  apply (Hgeneral _ _ _ _ Hdata).
Defined.

(** C1, where the code departs from the claim: every purchase that
    [POST /api/purchases] creates is answered with 201 and stored under its
    identifier with the schema's default status, pending, not confirmed;
    [validatePurchase], which asks for a confirmed record, turns it down at
    every clock. *)
Theorem created_purchase_is_pending (w : World) (req : Req.t) (db : DB)
  (p : Purchase.t)
  (Hcreated : data (fst (create w req db)) = Some p) :
  status (fst (create w req db)) = 201
  /\ Purchase.status p = Purchase.pending
  /\ Purchase._id p = new_id w
  /\ purchases (snd (create w req db)) !! new_id w = Some p
  /\ (forall (now : Z) (coll : gmap string Purchase.t),
        fst (Purchase.validatePurchase now (Doc.mkEnv p coll))
        = Purchase.Invalid "Achat non confirmé").
Proof.
  destruct (create_success w req db p Hcreated)
    as (subtotal & processed & image & _ & _ & Hp & _ & Hresp & Hdb).
  rewrite Hresp, Hdb, commit_stock_purchases. subst p. simpl.
  repeat split. apply lookup_insert_eq.
Qed.

Lemma created_purchase_is_pending_witness :
  Purchase.status Sample.purchase = Purchase.pending
  /\ purchases (snd (create Sample.world Sample.request Sample.db)) !! "p1"
     = Some Sample.purchase.
Proof.
  assert (Hcreated :
    data (fst (create Sample.world Sample.request Sample.db))
    = Some Sample.purchase) by (vm_compute; reflexivity).
  destruct (created_purchase_is_pending _ _ _ _ Hcreated)
    as (_ & Hs & _ & Hstored & _).
  split; [exact Hs | exact Hstored].
Defined.

(** C1, the failing input: the sample request is answered with 201 and a
    stored purchase whose status is pending, not confirmed. *)
Lemma created_purchase_not_confirmed :
  exists p : Purchase.t,
    fst (create Sample.world Sample.request Sample.db)
    = mkResponse 201 true "Achat créé avec succès" (Some p)
    /\ purchases (snd (create Sample.world Sample.request Sample.db))
       !! Purchase._id p = Some p
    /\ Purchase.status p = Purchase.pending
    /\ Purchase.status p <> Purchase.confirmed.
Proof.
  exists Sample.purchase.
  split; [vm_compute; reflexivity|].
  split; [vm_compute; reflexivity|].
  split; [reflexivity | discriminate].
Qed.

(** C6: when some line of the request asks for more than the stock of a
    ticket with limited stock, [POST /api/purchases] answers 400 without
    a record, every ticket keeps its stock and no purchase is stored. *)
Theorem insufficient_stock_rejected (w : World) (req : Req.t) (db : DB)
  (line : Req.Line) (tk : Ticket.t)
  (Hline : In line (Req.items (Req.body req)))
  (Hfound : tickets db !! Req.ticketId line = Some tk)
  (Hlimited : Ticket.stock tk <> -1)
  (Hshort : Ticket.stock tk < Req.quantity line) :
  status (fst (create w req db)) = 400
  /\ success (fst (create w req db)) = false
  /\ data (fst (create w req db)) = None
  /\ tickets (snd (create w req db)) = tickets db
  /\ purchases (snd (create w req db)) = purchases db.
Proof.
  rewrite create_eq. cbv zeta.
  destruct (check_lines_short _ 0%float [] db line tk Hline Hfound
              Hlimited Hshort) as (r & Hr).
  pose proof (check_lines_outcome (Req.items (Req.body req)) 0%float [] db)
    as Ho.
  rewrite Hr in Ho |- *. simpl. tauto.
Qed.

Lemma insufficient_stock_rejected_witness :
  status (fst (create Sample.world Sample.too_many Sample.db)) = 400
  /\ snd (create Sample.world Sample.too_many Sample.db) = Sample.db.
Proof.
  destruct (insufficient_stock_rejected Sample.world Sample.too_many
              Sample.db (Req.mkLine "t1" 6) Sample.ticket)
    as (Hstatus & _ & _ & Ht & Hp).
  - left; reflexivity.
  - reflexivity.
  - simpl; lia.
  - simpl; lia.
  - split; [exact Hstatus|].
    destruct (snd (create Sample.world Sample.too_many Sample.db)).
    simpl in Ht, Hp. rewrite Ht, Hp. reflexivity.
Defined.

End PurchaseRouteTheorems.

(** ** The cancellation route *)

Section CancelRouteTheorems.

Import Routes PurchaseRoutes.

(** The release loop runs to its end and writes tickets only. *)
Lemma release_lines_next (its : list Purchase.Item) (db : DB) :
  exists coll',
    release_lines its db = (Next tt, mkDB coll' (purchases db)).
Proof.
  revert db. induction its as [|it rest IH]; intros db.
  - exists (tickets db). simpl. unfold ret. rewrite DB_eta. reflexivity.
  - simpl. unfold bind at 1, Ticket_findById.
    destruct (tickets db !! Purchase.ticketId it) as [tk|]; [|apply IH].
    unfold bind at 1.
    destruct (call_ticket_next tk
                (Ticket.releaseStock (Purchase.quantity it)) db)
      as (a & tk1 & c1 & ->).
    cbv beta iota zeta.
    destruct (IH (mkDB c1 (purchases db))) as (coll' & ->).
    exists coll'. reflexivity.
Qed.

(** What [Purchase.findOne] finds for the requesting owner. *)
Lemma Purchase_findOne_owned (id user : string) (db : DB) (p : Purchase.t) :
  purchases db !! id = Some p ->
  Purchase.userId (Purchase.customer p) = user ->
  Purchase_findOne id user db = (Next (Some p), db).
Proof.
  intros Hfound Howner. unfold Purchase_findOne.
  rewrite Hfound, Howner, String.eqb_refl. reflexivity.
Qed.

(** What [Purchase.findOne] answers when the owner has no such purchase. *)
Lemma Purchase_findOne_missing (id user : string) (db : DB) :
  purchases db !! id = None
  \/ (exists p, purchases db !! id = Some p
                /\ Purchase.userId (Purchase.customer p) <> user) ->
  Purchase_findOne id user db = (Next None, db).
Proof.
  intros [Hnone | (p & Hfound & Hother)]; unfold Purchase_findOne.
  - rewrite Hnone. reflexivity.
  - rewrite Hfound. apply String.eqb_neq in Hother. rewrite Hother.
    reflexivity.
Qed.

Lemma cancel_missing (accepts : Purchase.Acceptance) (user id : string)
  (reason : option string) (db : DB) :
  purchases db !! id = None
  \/ (exists p, purchases db !! id = Some p
                /\ Purchase.userId (Purchase.customer p) <> user) ->
  cancel accepts user id reason db = (failure 404 "Achat non trouvé", db).
Proof.
  intros Hmissing. unfold cancel, try_catch, cancel_body. unfold bind at 1.
  rewrite (Purchase_findOne_missing _ _ _ Hmissing). reflexivity.
Qed.

(** The run of the cancel route on a confirmed purchase of the owner whose
    cancelled record passes the save. *)
Lemma cancel_confirmed (accepts : Purchase.Acceptance) (user id : string)
  (reason : option string) (db : DB) (p : Purchase.t) :
  purchases db !! id = Some p ->
  Purchase.userId (Purchase.customer p) = user ->
  Purchase.status p = Purchase.confirmed ->
  Purchase.save_ok accepts (purchases db)
    (Purchase.cancelled_record reason p) = true ->
  exists coll',
    cancel accepts user id reason db
    = (mkResponse 200 true "Achat annulé avec succès"
         (Some (Purchase.cancelled_record reason p)),
       mkDB coll'
         (<[Purchase._id p := Purchase.cancelled_record reason p]>
            (purchases db))).
Proof.
  intros Hfound Howner Hstatus Hsave.
  unfold cancel, try_catch, cancel_body. unfold bind at 1.
  rewrite (Purchase_findOne_owned _ _ _ _ Hfound Howner).
  unfold bind at 1, call_purchase.
  rewrite (cancelPurchase_confirmed (purchases db) accepts reason p
             Hstatus Hsave).
  set (p' := Purchase.cancelled_record reason p).
  cbn [fst snd Doc.this Doc.collection]. unfold bind at 1.
  cbn [await ret]. unfold bind at 1.
  destruct (release_lines_next (Purchase.items p')
              (mkDB (tickets db) (<[Purchase._id p := p']> (purchases db))))
    as (coll' & ->).
  cbn [purchases]. exists coll'. reflexivity.
Qed.

(** The run of the cancel route when [cancelPurchase] rejects, for the
    status or at the save: the catch-all answers, nothing is written. *)
Lemma cancel_rejected (accepts : Purchase.Acceptance) (user id : string)
  (reason : option string) (db : DB) (p : Purchase.t) :
  purchases db !! id = Some p ->
  Purchase.userId (Purchase.customer p) = user ->
  Purchase.status p <> Purchase.confirmed
  \/ Purchase.save_ok accepts (purchases db)
       (Purchase.cancelled_record reason p) = false ->
  cancel accepts user id reason db
  = (failure 500 "Erreur lors de l'annulation de l'achat", db).
Proof.
  intros Hfound Howner Hwhy.
  unfold cancel, try_catch, cancel_body. unfold bind at 1.
  rewrite (Purchase_findOne_owned _ _ _ _ Hfound Howner).
  unfold bind at 1, call_purchase.
  destruct (Purchase.Status_eqb (Purchase.status p) Purchase.confirmed) eqn:E.
  - apply Status_eqb_eq in E.
    destruct Hwhy as [Hne | Hsave]; [contradiction|].
    rewrite (cancelPurchase_unsaved (purchases db) accepts reason p E Hsave).
    cbn [fst snd Doc.this Doc.collection]. rewrite DB_eta.
    unfold bind at 1. reflexivity.
  - apply Status_eqb_neq in E.
    rewrite (cancelPurchase_rejected (purchases db) accepts reason p E).
    cbn [fst snd Doc.this Doc.collection]. rewrite DB_eta.
    unfold bind at 1. reflexivity.
Qed.

(** C8, where the code departs from the claim: the cancel route answers
    404, writing nothing, when no purchase is stored under the identifier
    or the stored one belongs to another user; when the owner's purchase
    exists and is not confirmed, the rejection of [cancelPurchase] reaches
    the catch-all handler and the answer is 500, not 400, with the store
    unchanged; when it is confirmed the answer is 200 with the cancelled
    record, stored under the identifier, if the save of that record passes
    (notes of at most 500 code units, nothing else held against it), and
    500 with the store unchanged if it does not. *)
Theorem cancel_status_codes (accepts : Purchase.Acceptance)
  (user id : string) (reason : option string) (db : DB) :
  (purchases db !! id = None ->
     cancel accepts user id reason db = (failure 404 "Achat non trouvé", db))
  /\ (forall p : Purchase.t,
       purchases db !! id = Some p ->
       Purchase.userId (Purchase.customer p) <> user ->
       cancel accepts user id reason db
       = (failure 404 "Achat non trouvé", db))
  /\ (forall p : Purchase.t,
       purchases db !! id = Some p ->
       Purchase.userId (Purchase.customer p) = user ->
       Purchase.status p <> Purchase.confirmed ->
       cancel accepts user id reason db
       = (failure 500 "Erreur lors de l'annulation de l'achat", db))
  /\ (forall p : Purchase.t,
       purchases db !! id = Some p ->
       Purchase.userId (Purchase.customer p) = user ->
       Purchase._id p = id ->
       Purchase.status p = Purchase.confirmed ->
       let p' := Purchase.cancelled_record reason p in
       (forall s, Purchase.notes p' = Some s -> JS.length s <= 500) ->
       accepts p' (purchases db) = true ->
       fst (cancel accepts user id reason db)
       = mkResponse 200 true "Achat annulé avec succès" (Some p')
       /\ Purchase.status p' = Purchase.cancelled
       /\ purchases (snd (cancel accepts user id reason db)) !! id = Some p')
  /\ (forall p : Purchase.t,
       purchases db !! id = Some p ->
       Purchase.userId (Purchase.customer p) = user ->
       Purchase.status p = Purchase.confirmed ->
       let p' := Purchase.cancelled_record reason p in
       (exists s, Purchase.notes p' = Some s /\ JS.length s > 500)
       \/ accepts p' (purchases db) = false ->
       cancel accepts user id reason db
       = (failure 500 "Erreur lors de l'annulation de l'achat", db)).
Proof.
  split; [|split; [|split; [|split]]].
  - intros Hnone. apply cancel_missing. left; exact Hnone.
  - intros p Hfound Hother. apply cancel_missing. right.
    exists p; split; assumption.
  - intros p Hfound Howner Hstatus.
    apply (cancel_rejected _ _ _ _ _ p Hfound Howner). left; exact Hstatus.
  - intros p Hfound Howner Hid Hstatus p' Hnotes Haccepts.
    assert (Hsave : Purchase.save_ok accepts (purchases db) p' = true)
      by (apply save_ok_spec; split; assumption).
    destruct (cancel_confirmed accepts user id reason db p Hfound Howner
                Hstatus Hsave) as (coll' & ->).
    cbn [fst snd purchases]. repeat split.
    rewrite Hid. apply lookup_insert_eq.
  - intros p Hfound Howner Hstatus p' Hwhy.
    apply (cancel_rejected _ _ _ _ _ p Hfound Howner). right.
    destruct (Purchase.save_ok accepts (purchases db) p') eqn:Hsave;
      [|exact Hsave].
    apply save_ok_spec in Hsave as [Hnotes Haccepts].
    destruct Hwhy as [(s & Hs & Hlong) | Hno]; [|congruence].
    specialize (Hnotes s Hs). lia.
Qed.

(** The validation route answers 400 for a purchase that is not
    confirmed: the same condition, handled by its own response. *)
Lemma validate_not_confirmed (now : Z) (code : string) (db : DB)
  (p : Purchase.t) :
  code <> EmptyString ->
  fst (Purchase_findOne_qrCode code db) = Next (Some p) ->
  Purchase.status p <> Purchase.confirmed ->
  validate now (Some code) db = (failure 400 "Achat non confirmé", db).
Proof.
  intros Hcode Hfound Hstatus.
  unfold validate, try_catch, validate_body.
  replace (JS.truthy (Some code)) with true
    by (destruct code; [contradiction | reflexivity]).
  cbn [negb JS.or_default]. unfold bind at 1.
  unfold Purchase_findOne_qrCode in *. cbn [fst] in Hfound.
  injection Hfound as ->.
  unfold bind at 1, call_purchase, Purchase.validatePurchase, Doc.bind,
    Doc.self, Doc.ret. cbn [Doc.this].
  apply Status_eqb_neq in Hstatus. rewrite Hstatus.
  cbn. rewrite DB_eta. reflexivity.
Qed.

End CancelRouteTheorems.

(** On the purchase that the POST route has just created, which is
    pending, the owner's cancel request is answered with 500. *)
Lemma cancel_status_codes_witness :
  Routes.status
    (fst (PurchaseRoutes.cancel Sample.lenient "u1" "p1" None
            (snd (PurchaseRoutes.create Sample.world Sample.request
                    Sample.db))))
  = 500.
Proof.
  destruct (cancel_status_codes Sample.lenient "u1" "p1" None
              (snd (PurchaseRoutes.create Sample.world Sample.request
                      Sample.db))) as (_ & _ & Hpending & _).
  rewrite (Hpending Sample.purchase).
  - reflexivity.
  - vm_compute; reflexivity.
  - reflexivity.
  - discriminate.
Defined.

(** * Further properties of the models and the routes *)

(** ** Refund and the life cycle of a purchase *)

Section LifecycleFacts.

Import Purchase PurchaseReads.
Variable coll : gmap string Purchase.t.

Lemma refundPurchase_allowed (accepts : Acceptance)
  (reason : option string) (p : Purchase.t) :
  status p = confirmed \/ status p = cancelled ->
  save_ok accepts coll (refunded_record reason p) = true ->
  refundPurchase accepts reason (Doc.mkEnv p coll)
  = (JS.Resolved (refunded_record reason p),
     Doc.mkEnv (refunded_record reason p)
       (<[_id p := refunded_record reason p]> coll)).
Proof.
  intros Hs Hok.
  unfold refundPurchase, Doc.bind, Doc.self, Doc.update, save, Doc.ret;
    simpl.
  replace (Status_eqb (status p) confirmed || Status_eqb (status p) cancelled)
    with true by (destruct Hs as [-> | ->]; reflexivity).
  simpl.
  change (assign_notes _ (set_status refunded p))
    with (refunded_record reason p).
  rewrite Hok. reflexivity.
Qed.

Lemma refundPurchase_unsaved (accepts : Acceptance)
  (reason : option string) (p : Purchase.t) :
  status p = confirmed \/ status p = cancelled ->
  save_ok accepts coll (refunded_record reason p) = false ->
  refundPurchase accepts reason (Doc.mkEnv p coll)
  = (JS.Rejected "Purchase validation failed",
     Doc.mkEnv (refunded_record reason p) coll).
Proof.
  intros Hs Hok.
  unfold refundPurchase, Doc.bind, Doc.self, Doc.update, save, Doc.ret;
    simpl.
  replace (Status_eqb (status p) confirmed || Status_eqb (status p) cancelled)
    with true by (destruct Hs as [-> | ->]; reflexivity).
  simpl.
  change (assign_notes _ (set_status refunded p))
    with (refunded_record reason p).
  rewrite Hok. reflexivity.
Qed.

Lemma refundPurchase_refused (accepts : Acceptance)
  (reason : option string) (p : Purchase.t) :
  status p <> confirmed -> status p <> cancelled ->
  refundPurchase accepts reason (Doc.mkEnv p coll)
  = (JS.Rejected "Impossible de rembourser cet achat", Doc.mkEnv p coll).
Proof.
  intros H1 H2. apply Status_eqb_neq in H1, H2.
  unfold refundPurchase, Doc.bind, Doc.self, Doc.ret; simpl.
  rewrite H1, H2. reflexivity.
Qed.

(** X1: [refundPurchase] resolves exactly when the record is confirmed or
    cancelled and its save passes, that is when the new notes have at most
    500 code units and the store accepts the record; the new notes are the
    trimmed text of the old notes, a line break and the reason after its
    label (the label and the reason alone when there were no notes), the
    status is refunded and nothing else changes; a resolved call stores the
    record, a call turned down at the save leaves the store as it was and
    the document changed in memory; in the three other statuses the call
    rejects and leaves the record and the collection as they were. *)
Theorem refundPurchase_spec (accepts : Acceptance)
  (reason : option string) (p : Purchase.t) :
  let r := refundPurchase accepts reason (Doc.mkEnv p coll) in
  let text := ("Remboursé: " ++ JS.or_default "" reason)%string in
  let stored := JS.trim (if JS.truthy (notes p)
                         then JS.or_default "" (notes p)
                              ++ JS.newline ++ text
                         else text)%string in
  exists p',
    status p' = refunded
    /\ notes p' = Some stored
    /\ set_status (status p) (set_notes (notes p) p') = p
    /\ ((exists doc, fst r = JS.Resolved doc)
        <-> (status p = confirmed \/ status p = cancelled)
            /\ JS.length stored <= 500 /\ accepts p' coll = true)
    /\ (status p = confirmed \/ status p = cancelled ->
        JS.length stored <= 500 -> accepts p' coll = true ->
        r = (JS.Resolved p', Doc.mkEnv p' (<[_id p := p']> coll)))
    /\ (status p = confirmed \/ status p = cancelled ->
        JS.length stored > 500 \/ accepts p' coll = false ->
        exists error, r = (JS.Rejected error, Doc.mkEnv p' coll))
    /\ (status p <> confirmed -> status p <> cancelled ->
        exists error, r = (JS.Rejected error, Doc.mkEnv p coll)).
Proof.
  intros r text stored; subst r.
  exists (refunded_record reason p).
  assert (Hnotes : notes (refunded_record reason p) = Some stored)
    by reflexivity.
  assert (Hok : save_ok accepts coll (refunded_record reason p) = true
                <-> JS.length stored <= 500
                    /\ accepts (refunded_record reason p) coll = true).
  { rewrite save_ok_spec, Hnotes. split.
    - intros [Hn Ha]; split; [apply Hn; reflexivity | exact Ha].
    - intros [Hn Ha]; split; [|exact Ha]. intros s [= <-]; exact Hn. }
  split; [reflexivity|]. split; [exact Hnotes|].
  split; [destruct p; reflexivity|].
  assert (Hcases : (status p = confirmed \/ status p = cancelled)
                   \/ (status p <> confirmed /\ status p <> cancelled))
    by (destruct (status p); auto; right; split; discriminate).
  destruct Hcases as [E | [H1 H2]].
  - destruct (save_ok accepts coll (refunded_record reason p)) eqn:S.
    + rewrite (refundPurchase_allowed _ _ _ E S).
      destruct Hok as [Hok _]. specialize (Hok eq_refl).
      split; [|split; [|split]].
      * split; [intros _; tauto | intros _; eexists; reflexivity].
      * intros _ _ _; reflexivity.
      * intros _ [Hlong | Hno]; [lia | destruct Hok; congruence].
      * intros Hne Hne'. destruct E; contradiction.
    + rewrite (refundPurchase_unsaved _ _ _ E S).
      split; [|split; [|split]].
      * split; [intros [doc Hdoc]; discriminate|].
        intros (_ & Hn & Ha).
        destruct Hok as [_ Hok]. specialize (Hok (conj Hn Ha)). discriminate.
      * intros _ Hn Ha.
        destruct Hok as [_ Hok]. specialize (Hok (conj Hn Ha)). discriminate.
      * intros _ _; eexists; reflexivity.
      * intros Hne Hne'. destruct E; contradiction.
  - rewrite (refundPurchase_refused _ _ _ H1 H2).
    split; [|split; [|split]].
    + split; [intros [doc Hdoc]; discriminate|].
      intros [[Hs|Hs] _]; contradiction.
    + intros [Hs|Hs]; contradiction.
    + intros [Hs|Hs]; contradiction.
    + intros _ _; eexists; reflexivity.
Qed.

(** X2: from a confirmed record, a cancellation whose save passes resolves
    to the cancelled record, and one turned down at the save leaves the
    document cancelled in memory and the store as it was; a cancellation
    cannot be repeated (the second [cancelPurchase] rejects and changes
    nothing); a refund of the cancelled record resolves when its save
    passes; the refunded record is final: both [cancelPurchase] and
    [refundPurchase] reject on it, before any save. *)
Theorem cancel_refund_lifecycle (accepts : Acceptance)
  (r1 r2 r3 : option string) (p : Purchase.t)
  (Hconfirmed : status p = confirmed) :
  let c := cancelled_record r1 p in
  let f := refunded_record r2 c in
  (save_ok accepts coll c = true ->
     fst (cancelPurchase accepts r1 (Doc.mkEnv p coll)) = JS.Resolved c)
  /\ (save_ok accepts coll c = false ->
      exists error,
        cancelPurchase accepts r1 (Doc.mkEnv p coll)
        = (JS.Rejected error, Doc.mkEnv c coll))
  /\ (exists error,
        cancelPurchase accepts r3 (Doc.mkEnv c coll)
        = (JS.Rejected error, Doc.mkEnv c coll))
  /\ (save_ok accepts coll f = true ->
      fst (refundPurchase accepts r2 (Doc.mkEnv c coll)) = JS.Resolved f)
  /\ (exists error,
        cancelPurchase accepts r3 (Doc.mkEnv f coll)
        = (JS.Rejected error, Doc.mkEnv f coll))
  /\ (exists error,
        refundPurchase accepts r3 (Doc.mkEnv f coll)
        = (JS.Rejected error, Doc.mkEnv f coll)).
Proof.
  intros c f; subst c f.
  split; [intros Hsave;
          rewrite (cancelPurchase_confirmed _ _ _ _ Hconfirmed Hsave);
          reflexivity|].
  split; [intros Hsave; eexists;
          apply (cancelPurchase_unsaved _ _ _ _ Hconfirmed Hsave)|].
  split; [eexists; apply cancelPurchase_rejected; discriminate|].
  split; [intros Hsave;
          rewrite refundPurchase_allowed by (auto; right; reflexivity);
          reflexivity|].
  split; [eexists; apply cancelPurchase_rejected; discriminate|].
  eexists; apply refundPurchase_refused; discriminate.
Qed.

(** X3: the [isValid] virtual holds exactly when [validatePurchase]
    answers valid and the clock has reached [validFrom]. *)
Theorem isValid_validatePurchase (now : Z) (p : Purchase.t) :
  isValid now p
  = valid (fst (validatePurchase now (Doc.mkEnv p coll)))
    && (validFrom p <=? now).
Proof.
  unfold isValid, validatePurchase, isExpired, Doc.bind, Doc.self, Doc.ret;
    simpl.
  destruct (Status_eqb (status p) confirmed); simpl; [|reflexivity].
  destruct (now >? validUntil p) eqn:E; simpl.
  - replace (validUntil p >=? now) with false by lia.
    apply andb_false_r.
  - replace (validUntil p >=? now) with true by lia.
    apply andb_true_r.
Qed.

End LifecycleFacts.

Lemma refundPurchase_spec_witness :
  exists p',
    Purchase.notes p' = Some "Remboursé: geste commercial"%string
    /\ Purchase.refundPurchase Sample.lenient (Some "geste commercial"%string)
         (Doc.mkEnv Sample.confirmed ∅)
       = (JS.Resolved p',
          Doc.mkEnv p' (<[Purchase._id Sample.confirmed := p']> ∅)).
Proof.
  destruct (refundPurchase_spec ∅ Sample.lenient
              (Some "geste commercial"%string) Sample.confirmed)
    as (p' & _ & Hnotes & _ & _ & Hstored & _).
  exists p'. split; [exact Hnotes|].
  apply Hstored; [left; reflexivity | vm_compute; discriminate | reflexivity].
Defined.

(** With no reason given to the cancellation, the notes after the refund
    are the two labels on two lines, the first without its trailing
    blank. *)
Lemma cancel_refund_lifecycle_witness :
  fst (Purchase.refundPurchase Sample.lenient (Some "geste commercial")
         (Doc.mkEnv (Purchase.cancelled_record None Sample.confirmed) ∅))
  = JS.Resolved
      (PurchaseReads.refunded_record (Some "geste commercial")
         (Purchase.cancelled_record None Sample.confirmed))
  /\ Purchase.notes
       (PurchaseReads.refunded_record (Some "geste commercial")
          (Purchase.cancelled_record None Sample.confirmed))
     = Some ("Annulé:" ++ JS.newline ++ "Remboursé: geste commercial")%string.
Proof.
  split; [|vm_compute; reflexivity].
  apply (cancel_refund_lifecycle ∅ Sample.lenient None
           (Some "geste commercial") None Sample.confirmed).
  - reflexivity.
  - vm_compute; reflexivity.
Defined.

(** ** Stock bookkeeping of a ticket *)

Section StockFacts.

Import Ticket PurchaseReads.
Variable coll : gmap string Ticket.t.

(** X4: on a ticket with limited stock below the quantity, [reserveStock]
    returns [false] and neither the document nor the collection changes. *)
Theorem reserveStock_insufficient (tk : Ticket.t) (q : Z)
  (Hlimited : stock tk <> -1) (Hshort : stock tk < q) :
  reserveStock q (Doc.mkEnv tk coll) = (Bool false, Doc.mkEnv tk coll).
Proof.
  unfold reserveStock, Doc.bind, Doc.self, Doc.ret; simpl.
  replace (stock tk =? -1) with false by lia.
  replace (stock tk >=? q) with false by lia.
  reflexivity.
Qed.

(** X5: a stock that is the sentinel or a natural number stays so: after
    [reserveStock], whatever the quantity, and after [releaseStock] of a
    quantity that is not negative; the document and what is stored under
    its identifier agree afterwards whenever something was saved; the saved
    stock is the exact difference or sum as long as the stock before and
    after is at most 2^53, where a Number holds every integer. *)
Theorem stock_stays_ok (tk : Ticket.t) (q : Z) (Hok : stock_ok tk) :
  stock_ok (Doc.this (snd (reserveStock q (Doc.mkEnv tk coll))))
  /\ (0 <= q ->
      stock_ok (Doc.this (snd (releaseStock q (Doc.mkEnv tk coll)))))
  /\ (forall doc,
        fst (reserveStock q (Doc.mkEnv tk coll)) = Saved doc ->
        Doc.collection (snd (reserveStock q (Doc.mkEnv tk coll))) !! _id tk
        = Some doc
        /\ 0 <= stock doc
        /\ (0 <= q -> stock tk <= 2 ^ 53 -> stock doc = stock tk - q))
  /\ (forall doc,
        0 <= q ->
        fst (releaseStock q (Doc.mkEnv tk coll)) = Saved doc ->
        Doc.collection (snd (releaseStock q (Doc.mkEnv tk coll))) !! _id tk
        = Some doc
        /\ 0 <= stock doc
        /\ (stock tk + q <= 2 ^ 53 -> stock doc = stock tk + q)).
Proof.
  unfold stock_ok in *.
  unfold reserveStock, releaseStock, Doc.bind, Doc.self, Doc.update,
    Doc.save, Doc.ret; simpl.
  assert (Hz : 2 ^ 53 = 9007199254740992) by reflexivity.
  destruct (stock tk =? -1) eqn:E1; simpl.
  - repeat split; try (left; lia); intros; discriminate.
  - assert (Hnat : 0 <= stock tk) by lia.
    assert (Hup : 0 <= q -> 0 <= JS.round_int (stock tk + q))
      by (intros; apply round_int_nonneg; lia).
    assert (Hupv : 0 <= q -> stock tk + q <= 2 ^ 53 ->
                   JS.round_int (stock tk + q) = stock tk + q)
      by (intros; apply round_int_safe; unfold JS.safe; lia).
    destruct (stock tk >=? q) eqn:E2; simpl.
    + assert (Hdown : 0 <= JS.round_int (stock tk - q))
        by (apply round_int_nonneg; lia).
      assert (Hdownv : 0 <= q -> stock tk <= 2 ^ 53 ->
                       JS.round_int (stock tk - q) = stock tk - q)
        by (intros; apply round_int_safe; unfold JS.safe; lia).
      split; [right; exact Hdown|].
      split; [intros Hq; right; exact (Hup Hq)|].
      split.
      * intros doc [= <-]. rewrite lookup_insert_eq. simpl.
        split; [reflexivity|]. split; [exact Hdown | exact Hdownv].
      * intros doc Hq [= <-]. rewrite lookup_insert_eq. simpl.
        split; [reflexivity|]. split; [exact (Hup Hq) | exact (Hupv Hq)].
    + split; [right; lia|].
      split; [intros Hq; right; exact (Hup Hq)|].
      split.
      * intros doc Hdoc; discriminate.
      * intros doc Hq [= <-]. rewrite lookup_insert_eq. simpl.
        split; [reflexivity|]. split; [exact (Hup Hq) | exact (Hupv Hq)].
Qed.

(** X6: asking for one unit is the [inStock] virtual on an available
    ticket: [isAvailableForPurchase(1)] is [isAvailable && inStock]. *)
Theorem isAvailableForPurchase_one (tk : Ticket.t) :
  fst (isAvailableForPurchase 1 (Doc.mkEnv tk coll))
  = isAvailable tk && inStock tk.
Proof.
  rewrite isAvailableForPurchase_value. unfold inStock.
  destruct (isAvailable tk); simpl; [|reflexivity].
  destruct (stock tk =? -1); simpl; [reflexivity|].
  destruct (1 <=? stock tk) eqn:E; symmetry; lia.
Qed.

End StockFacts.

Lemma reserveStock_insufficient_witness :
  Ticket.reserveStock 6 (Doc.mkEnv Sample.ticket ∅)
  = (Ticket.Bool false, Doc.mkEnv Sample.ticket ∅).
Proof.
  apply (reserveStock_insufficient ∅ Sample.ticket 6); simpl; lia.
Defined.

Lemma stock_stays_ok_witness :
  PurchaseReads.stock_ok
    (Doc.this (snd (Ticket.reserveStock 5 (Doc.mkEnv Sample.ticket ∅)))).
Proof.
  apply (stock_stays_ok ∅ Sample.ticket 5). right; simpl; lia.
Defined.

(** ** The two loops over the lines of a purchase *)

Section LoopFacts.

Import Routes PurchaseRoutes PurchaseReads.

(** One turn of the second loop of the POST handler. *)
Lemma commit_stock_cons (it : Purchase.Item) (rest : list Purchase.Item)
  (db : DB) (tk : Ticket.t) :
  tickets db !! Purchase.ticketId it = Some tk ->
  exists c,
    commit_stock (it :: rest) db = commit_stock rest (mkDB c (purchases db))
    /\ c !! Ticket._id tk
       = Some (sold (Purchase.quantity it) (Purchase.totalPrice it) tk)
    /\ (forall k, k <> Ticket._id tk -> c !! k = tickets db !! k).
Proof.
  intros Hfound. simpl. unfold bind at 1, Ticket_findById. rewrite Hfound.
  unfold bind, call_ticket, Ticket.reserveStock, Ticket.updateStats,
    Doc.bind, Doc.self, Doc.update, Doc.save, Doc.ret, sold, reserved; simpl.
  destruct (Ticket.stock tk =? -1); simpl.
  - eexists. split; [reflexivity|]. split.
    + apply lookup_insert_eq.
    + intros k Hk. apply lookup_insert_ne. congruence.
  - destruct (Ticket.stock tk >=? Purchase.quantity it); simpl.
    + eexists. split; [reflexivity|]. split.
      * apply lookup_insert_eq.
      * intros k Hk. rewrite !lookup_insert_ne by congruence. reflexivity.
    + eexists. split; [reflexivity|]. split.
      * apply lookup_insert_eq.
      * intros k Hk. apply lookup_insert_ne. congruence.
Qed.

(** One turn of the loop of the cancel handler. *)
Lemma release_lines_cons (it : Purchase.Item) (rest : list Purchase.Item)
  (db : DB) (tk : Ticket.t) :
  tickets db !! Purchase.ticketId it = Some tk ->
  exists c,
    release_lines (it :: rest) db = release_lines rest (mkDB c (purchases db))
    /\ (Ticket.stock tk = -1 -> c = tickets db)
    /\ (Ticket.stock tk <> -1 ->
        c = <[Ticket._id tk := released (Purchase.quantity it) tk]>
              (tickets db)).
Proof.
  intros Hfound. simpl. unfold bind at 1, Ticket_findById. rewrite Hfound.
  unfold bind, call_ticket, Ticket.releaseStock, Doc.bind, Doc.self,
    Doc.update, Doc.save, Doc.ret, released; simpl.
  destruct (Ticket.stock tk =? -1) eqn:E; simpl.
  - eexists. split; [reflexivity|]. split; [reflexivity | lia].
  - eexists. split; [reflexivity|]. split; [lia | reflexivity].
Qed.

Lemma release_lines_skip (it : Purchase.Item) (rest : list Purchase.Item)
  (db : DB) :
  tickets db !! Purchase.ticketId it = None ->
  release_lines (it :: rest) db = release_lines rest db.
Proof.
  intros Hnone. simpl. unfold bind at 1, Ticket_findById.
  rewrite Hnone. reflexivity.
Qed.

Lemma demand_cons (k : string) (it : Purchase.Item)
  (rest : list Purchase.Item) :
  demand k (it :: rest)
  = if String.eqb (Purchase.ticketId it) k
    then Purchase.quantity it + demand k rest else demand k rest.
Proof. reflexivity. Qed.

Lemma demand_nonneg (k : string) (its : list Purchase.Item) :
  Forall (fun it => 0 <= Purchase.quantity it) its -> 0 <= demand k its.
Proof.
  induction 1 as [|it rest Hq _ IH]; [reflexivity|].
  rewrite demand_cons. destruct (String.eqb _ k); lia.
Qed.

(** Up to 2^53 the released stock is the exact sum. *)
Lemma released_stock (q : Z) (tk : Ticket.t) :
  stock_ok tk -> Ticket.stock tk <> -1 -> 0 <= q ->
  Ticket.stock tk + q <= 2 ^ 53 ->
  released q tk = Ticket.set_stock (Ticket.stock tk + q) tk.
Proof.
  intros Hok Hlimited Hq Hbound. unfold released.
  replace (Ticket.stock tk =? -1) with false by lia.
  rewrite round_int_safe; [reflexivity|].
  unfold JS.safe. change (2 ^ 53) with 9007199254740992 in *.
  destruct Hok; lia.
Qed.

(** The release loop of the cancel route, ticket by ticket: on a
    store that keeps every ticket under its identifier, with quantities
    that are not negative, a ticket with limited stock ends with its stock
    raised by the total quantity of the lines that name it, whatever its
    stock was before the purchase (there is no ceiling below 2^53), and
    with its other fields, statistics included, as they were; a ticket with
    unlimited stock is left alone; no ticket is created. *)
Lemma release_lines_effect (its : list Purchase.Item) (db : DB)
  (Hkeys : well_keyed (tickets db))
  (Hquantities : Forall (fun it => 0 <= Purchase.quantity it) its) :
  (forall k tk,
     tickets db !! k = Some tk -> stock_ok tk ->
     Ticket.stock tk + demand k its <= 2 ^ 53 ->
     tickets (snd (release_lines its db)) !! k
     = Some (if Ticket.stock tk =? -1 then tk
             else Ticket.set_stock (Ticket.stock tk + demand k its) tk))
  /\ (forall k,
        tickets db !! k = None ->
        tickets (snd (release_lines its db)) !! k = None)
  /\ purchases (snd (release_lines its db)) = purchases db.
Proof.
  revert db Hkeys.
  induction Hquantities as [|it rest Hq Hrest IH]; intros db Hkeys.
  - simpl. repeat split; auto. intros k tk Hk _ _.
    rewrite Z.add_0_r, set_stock_same.
    destruct (Ticket.stock tk =? -1); exact Hk.
  - destruct (tickets db !! Purchase.ticketId it) as [tk0|] eqn:Hfound.
    + destruct (release_lines_cons it rest db tk0 Hfound)
        as (c & -> & Hunl & Hlim).
      pose proof (Hkeys _ _ Hfound) as Hid.
      destruct (Z.eq_dec (Ticket.stock tk0) (-1)) as [Hs|Hs].
      * rewrite (Hunl Hs). rewrite DB_eta.
        destruct (IH db Hkeys) as (IH1 & IH2 & IH3).
        repeat split; auto.
        intros k tk Hk Hok Hbound. rewrite demand_cons in Hbound |- *.
        destruct (String.eqb_spec (Purchase.ticketId it) k) as [<-|Hne];
          [|apply IH1; assumption].
        assert (tk = tk0) by congruence; subst tk.
        rewrite (IH1 _ _ Hk Hok) by lia.
        replace (Ticket.stock tk0 =? -1) with true by lia. reflexivity.
      * rewrite (Hlim Hs). rewrite Hid.
        set (tk1 := released (Purchase.quantity it) tk0).
        assert (Hid1 : Ticket._id tk1 = Purchase.ticketId it)
          by (subst tk1; unfold released;
              destruct (Ticket.stock tk0 =? -1); exact Hid).
        assert (Hkeys1 : well_keyed
                  (<[Purchase.ticketId it := tk1]> (tickets db)))
          by (rewrite <- Hid1; apply well_keyed_insert; exact Hkeys).
        destruct (IH (mkDB (<[Purchase.ticketId it := tk1]> (tickets db))
                        (purchases db)) Hkeys1) as (IH1 & IH2 & IH3).
        cbn [tickets purchases] in *.
        repeat split; auto.
        -- intros k tk Hk Hok Hbound. rewrite demand_cons in Hbound |- *.
           destruct (String.eqb_spec (Purchase.ticketId it) k) as [<-|Hne].
           ++ assert (tk = tk0) by congruence; subst tk.
              pose proof (demand_nonneg (Purchase.ticketId it) rest Hrest)
                as Hnn.
              assert (Hnat : 0 <= Ticket.stock tk0)
                by (destruct Hok; lia).
              assert (Htk1 : tk1 = Ticket.set_stock
                                     (Ticket.stock tk0 + Purchase.quantity it)
                                     tk0)
                by (subst tk1; apply released_stock; auto; lia).
              rewrite (IH1 _ tk1 (lookup_insert_eq _ _ _)).
              ** rewrite Htk1. simpl.
                 replace (Ticket.stock tk0 + Purchase.quantity it =? -1)
                   with false by lia.
                 replace (Ticket.stock tk0 =? -1) with false by lia.
                 unfold Ticket.set_stock; simpl. do 2 f_equal. lia.
              ** rewrite Htk1. right; simpl; lia.
              ** rewrite Htk1. simpl. lia.
           ++ apply IH1; [|exact Hok | exact Hbound].
              rewrite lookup_insert_ne by exact Hne. exact Hk.
        -- intros k Hk. apply IH2.
           rewrite lookup_insert_ne; [exact Hk|]. congruence.
    + rewrite (release_lines_skip _ _ _ Hfound).
      destruct (IH db Hkeys) as (IH1 & IH2 & IH3).
      repeat split; auto.
      intros k tk Hk Hok Hbound. rewrite demand_cons in Hbound |- *.
      destruct (String.eqb_spec (Purchase.ticketId it) k) as [<-|Hne];
        [congruence | apply IH1; assumption].
Qed.

Lemma sold_fields (q : Z) (line_total : float) (tk : Ticket.t) :
  Ticket._id (sold q line_total tk) = Ticket._id tk
  /\ Ticket.type (sold q line_total tk) = Ticket.type tk
  /\ Ticket.price (sold q line_total tk) = Ticket.price tk
  /\ Ticket.isAvailable (sold q line_total tk) = Ticket.isAvailable tk
  /\ Ticket.stock (sold q line_total tk)
     = if Ticket.stock tk =? -1 then -1
       else if Ticket.stock tk >=? q
            then JS.round_int (Ticket.stock tk - q)
            else Ticket.stock tk.
Proof.
  unfold sold, reserved.
  destruct (Ticket.stock tk =? -1) eqn:E1; simpl.
  - repeat split. lia.
  - destruct (Ticket.stock tk >=? q); simpl; repeat split.
Qed.

(** The second loop of the POST handler, ticket by ticket. *)
Lemma commit_stock_effect (its : list Purchase.Item) (db : DB) :
  well_keyed (tickets db) ->
  Forall (fun it => is_Some (tickets db !! Purchase.ticketId it)) its ->
  forall k tk,
    tickets db !! k = Some tk -> stock_ok tk ->
    exists tk',
      tickets (snd (commit_stock its db)) !! k = Some tk'
      /\ Ticket._id tk' = Ticket._id tk
      /\ Ticket.type tk' = Ticket.type tk
      /\ Ticket.price tk' = Ticket.price tk
      /\ Ticket.isAvailable tk' = Ticket.isAvailable tk
      /\ stock_ok tk'
      /\ (Ticket.stock tk = -1 <-> Ticket.stock tk' = -1)
      /\ (Forall (fun it => 0 <= Purchase.quantity it) its ->
          Ticket.stock tk <= 2 ^ 53 ->
          Ticket.stock tk' <= Ticket.stock tk
          /\ (Ticket.stock tk <> -1 -> demand k its <= Ticket.stock tk ->
              Ticket.stock tk' = Ticket.stock tk - demand k its)).
Proof.
  intros Hkeys Hpresent. revert db Hkeys Hpresent.
  induction its as [|it rest IH]; intros db Hkeys Hpresent k tk Hk Hok.
  - exists tk. simpl. repeat split; auto; try lia.
  - inversion Hpresent as [|? ? [tk0 Hfound] Hrest]; subst.
    destruct (commit_stock_cons it rest db tk0 Hfound)
      as (c & -> & Hsold & Hothers).
    pose proof (Hkeys _ _ Hfound) as Hid. rewrite Hid in Hsold, Hothers.
    destruct (sold_fields (Purchase.quantity it) (Purchase.totalPrice it) tk0)
      as (Sid & Stype & Sprice & Savail & Sstock).
    set (tk1 := sold (Purchase.quantity it) (Purchase.totalPrice it) tk0) in *.
    assert (Hkeys1 : well_keyed c).
    { intros k' t Hlook.
      destruct (decide (k' = Purchase.ticketId it)) as [->|Hne].
      - rewrite Hsold in Hlook. injection Hlook as <-. congruence.
      - rewrite (Hothers _ Hne) in Hlook. apply (Hkeys _ _ Hlook). }
    assert (Hpresent1 :
      Forall (fun it' => is_Some (c !! Purchase.ticketId it')) rest).
    { eapply Forall_impl; [exact Hrest|]. intros it' Hsome; simpl in *.
      destruct (decide (Purchase.ticketId it' = Purchase.ticketId it))
        as [->|Hne].
      - rewrite Hsold. eexists; reflexivity.
      - rewrite (Hothers _ Hne). exact Hsome. }
    rewrite demand_cons.
    destruct (String.eqb_spec (Purchase.ticketId it) k) as [<-|Hne].
    + assert (tk = tk0) by congruence; subst tk.
      assert (Hround : Ticket.stock tk0 >= Purchase.quantity it ->
                       0 <= JS.round_int
                              (Ticket.stock tk0 - Purchase.quantity it))
        by (intros; apply round_int_nonneg; lia).
      assert (Hok1 : stock_ok tk1).
      { unfold stock_ok in *. rewrite Sstock.
        destruct (Ticket.stock tk0 =? -1) eqn:E1; [left; reflexivity|].
        destruct (Ticket.stock tk0 >=? Purchase.quantity it) eqn:E2;
          right; [apply Hround|]; lia. }
      destruct (IH (mkDB c (purchases db)) Hkeys1 Hpresent1 _ tk1 Hsold Hok1)
        as (tk' & Hlook & Iid & Itype & Iprice & Iavail & Iok
            & Iunl & Iexact).
      exists tk'.
      split; [exact Hlook|]. split; [congruence|]. split; [congruence|].
      split; [congruence|]. split; [congruence|].
      split; [exact Iok|]. split; [split|].
      * intros Hs. apply Iunl. rewrite Sstock.
        replace (Ticket.stock tk0 =? -1) with true by lia. reflexivity.
      * intros Hs. apply Iunl in Hs. rewrite Sstock in Hs.
        destruct (Ticket.stock tk0 =? -1) eqn:E1; [lia|].
        destruct (Ticket.stock tk0 >=? Purchase.quantity it) eqn:E2;
          [|unfold stock_ok in Hok; lia].
        assert (Hge : Ticket.stock tk0 >= Purchase.quantity it) by lia.
        specialize (Hround Hge). lia.
      * intros Hall Hbound. inversion Hall as [|? ? Hq Hqs]; subst.
        pose proof (demand_nonneg (Purchase.ticketId it) rest Hqs) as Hnn.
        assert (Hz : 2 ^ 53 = 9007199254740992) by reflexivity.
        destruct (Ticket.stock tk0 =? -1) eqn:E1.
        -- rewrite Sstock in Iexact.
           destruct Iexact as [Hle Hex]; [exact Hqs | lia |]. split; lia.
        -- assert (Hnat : 0 <= Ticket.stock tk0)
             by (unfold stock_ok in Hok; lia).
           destruct (Ticket.stock tk0 >=? Purchase.quantity it) eqn:E2.
           ++ rewrite round_int_safe in Sstock by (unfold JS.safe; lia).
              rewrite Sstock in Iexact.
              destruct Iexact as [Hle Hex]; [exact Hqs | lia |].
              split; [lia|]. intros Hlimited Hdemand.
              rewrite Hex; lia.
           ++ rewrite Sstock in Iexact.
              destruct Iexact as [Hle Hex]; [exact Hqs | lia |].
              split; [lia|]. intros Hlimited Hdemand. lia.
    + assert (Hk1 : c !! k = Some tk)
        by (rewrite Hothers by congruence; exact Hk).
      destruct (IH (mkDB c (purchases db)) Hkeys1 Hpresent1 _ tk Hk1 Hok)
        as (tk' & Hlook & Iid & Itype & Iprice & Iavail & Iok
            & Iunl & Iexact).
      exists tk'.
      split; [exact Hlook|]. split; [exact Iid|]. split; [exact Itype|].
      split; [exact Iprice|]. split; [exact Iavail|].
      split; [exact Iok|]. split; [exact Iunl|].
      intros Hall. apply Iexact. inversion Hall; assumption.
Qed.

End LoopFacts.

(** ** What a purchase request does to the store *)

Section PurchaseEffects.

Import Routes PurchaseRoutes PurchaseReads.

Lemma requested_cons (k : string) (line : Req.Line) (rest : list Req.Line) :
  requested k (line :: rest)
  = if String.eqb (Req.ticketId line) k
    then Req.quantity line + requested k rest else requested k rest.
Proof. reflexivity. Qed.

(** The recorded lines of a well-keyed store mirror the request lines. *)
Lemma recorded_lines (db : DB) (lines : list Req.Line)
  (its : list Purchase.Item) :
  well_keyed (tickets db) ->
  Forall2 (fun line it =>
             exists tk, tickets db !! Req.ticketId line = Some tk
                        /\ available tk (Req.quantity line) = true
                        /\ it = line_item tk line) lines its ->
  map Purchase.ticketId its = map Req.ticketId lines
  /\ map Purchase.quantity its = map Req.quantity lines
  /\ (forall k, demand k its = requested k lines)
  /\ Forall (fun it => is_Some (tickets db !! Purchase.ticketId it)) its.
Proof.
  intros Hkeys Hall.
  induction Hall as [|line it lines its (tk & Hfound & _ & ->) _ IH].
  - repeat split. constructor.
  - destruct IH as (IHid & IHq & IHd & IHp).
    pose proof (Hkeys _ _ Hfound) as Hid.
    split; [simpl; rewrite Hid, IHid; reflexivity|].
    split; [simpl; rewrite IHq; reflexivity|].
    split.
    + intros k. rewrite demand_cons, requested_cons, IHd. simpl.
      rewrite Hid. reflexivity.
    + constructor; [|exact IHp]. simpl. rewrite Hid, Hfound.
      eexists; reflexivity.
Qed.

Lemma nonneg_quantities (lines : list Req.Line) (its : list Purchase.Item) :
  map Purchase.quantity its = map Req.quantity lines ->
  Forall (fun line => 0 <= Req.quantity line) lines ->
  Forall (fun it => 0 <= Purchase.quantity it) its.
Proof.
  revert its. induction lines as [|line rest IH]; intros [|it its] Hmap Hall;
    try discriminate; constructor.
  - injection Hmap as Hq _. inversion Hall; subst. lia.
  - injection Hmap as _ Hrest. inversion Hall; subst. apply IH; assumption.
Qed.

(** X7: what a created purchase leaves in every ticket of a well-keyed
    store: identifier, type, price and availability as before; a stock
    that is still the sentinel or a natural number (never negative),
    unlimited exactly when it was; and, for quantities that are not
    negative and a stock of at most 2^53, a stock that did not grow and
    that went down by exactly the total quantity requested for the ticket
    when the stock covered it. *)
Theorem purchase_stock_effect (w : World) (req : Req.t) (db : DB)
  (p : Purchase.t)
  (Hcreated : data (fst (create w req db)) = Some p)
  (Hkeys : well_keyed (tickets db)) :
  forall k tk,
    tickets db !! k = Some tk -> stock_ok tk ->
    let asked := requested k (Req.items (Req.body req)) in
    exists tk',
      tickets (snd (create w req db)) !! k = Some tk'
      /\ Ticket._id tk' = Ticket._id tk
      /\ Ticket.type tk' = Ticket.type tk
      /\ Ticket.price tk' = Ticket.price tk
      /\ Ticket.isAvailable tk' = Ticket.isAvailable tk
      /\ stock_ok tk'
      /\ (Ticket.stock tk = -1 <-> Ticket.stock tk' = -1)
      /\ (Forall (fun line => 0 <= Req.quantity line)
                 (Req.items (Req.body req)) ->
          Ticket.stock tk <= 2 ^ 53 ->
          Ticket.stock tk' <= Ticket.stock tk
          /\ (Ticket.stock tk <> -1 -> asked <= Ticket.stock tk ->
              Ticket.stock tk' = Ticket.stock tk - asked)).
Proof.
  intros k tk Hk Hok asked; subst asked.
  destruct (create_success w req db p Hcreated)
    as (subtotal & processed & image & Hrun & _ & _ & _ & _ & ->).
  destruct (check_lines_result _ _ _ _ _ _ Hrun)
    as (added & Hout & Hall & _).
  simpl in Hout; subst added.
  destruct (recorded_lines db _ _ Hkeys Hall) as (_ & Hq & Hdemand & Hpresent).
  destruct (commit_stock_effect processed
              (mkDB (tickets db) (<[new_id w := p]> (purchases db)))
              Hkeys Hpresent k tk Hk Hok)
    as (tk' & Hlook & Iid & Itype & Iprice & Iavail & Iok
        & Iunl & Iexact).
  exists tk'. rewrite <- Hdemand.
  split; [exact Hlook|]. split; [exact Iid|]. split; [exact Itype|].
  split; [exact Iprice|]. split; [exact Iavail|].
  split; [exact Iok|]. split; [exact Iunl|].
  intros Hall'. apply Iexact. exact (nonneg_quantities _ _ Hq Hall').
Qed.

(** A turn of the second loop on a ticket that is gone. *)
Lemma commit_stock_missing (it : Purchase.Item) (rest : list Purchase.Item)
  (db : DB) :
  tickets db !! Purchase.ticketId it = None ->
  snd (commit_stock (it :: rest) db) = db.
Proof.
  intros Hnone. simpl. unfold bind at 1, Ticket_findById.
  rewrite Hnone. reflexivity.
Qed.



End PurchaseEffects.

(** ** Answers of the purchase route *)

Section PurchaseAnswers.

Import Routes PurchaseRoutes PurchaseReads.

(** A line that is not valid stops the first loop. *)
Lemma check_lines_stops (lines : list Req.Line) (subtotal : float)
  (processed : list Purchase.Item) (db : DB) :
  ~ Forall (valid_line (tickets db)) lines ->
  exists r, fst (check_lines lines subtotal processed db) = Respond r.
Proof.
  revert subtotal processed.
  induction lines as [|line rest IH]; intros subtotal processed Hnot.
  - exfalso. apply Hnot. constructor.
  - rewrite check_lines_cons.
    destruct (tickets db !! Req.ticketId line) as [tk|] eqn:Hfound;
      [|eexists; reflexivity].
    destruct (available tk (Req.quantity line)) eqn:Hav;
      [|eexists; reflexivity].
    apply IH. intros Hrest. apply Hnot. constructor; [|exact Hrest].
    exists tk. split; assumption.
Qed.


(** X10: when the lines are valid but the encoding of the code fails, the
    POST route answers 500; no purchase is stored and no stock is taken. *)
Theorem purchase_encoding_failure (w : World) (req : Req.t) (db : DB)
  (error : string)
  (Hvalid : Forall (valid_line (tickets db)) (Req.items (Req.body req)))
  (Hfails : toDataURL w (purchaseId w) = JS.Rejected error) :
  create w req db
  = (failure 500 "Erreur lors de la création de l'achat", db).
Proof.
  destruct (check_lines_completes _ 0%float [] db Hvalid)
    as (s & out & Hrun).
  rewrite create_eq, Hrun, Hfails. reflexivity.
Qed.


End PurchaseAnswers.

(** ** Cancellation and the stock *)

Section CancelEffects.

Import Routes PurchaseRoutes PurchaseReads.

(** The store after the cancel route on a confirmed purchase of the owner
    whose cancelled record passes the save. *)
Lemma cancel_confirmed_state (accepts : Purchase.Acceptance)
  (user id : string) (reason : option string) (db : DB) (p : Purchase.t) :
  purchases db !! id = Some p ->
  Purchase.userId (Purchase.customer p) = user ->
  Purchase.status p = Purchase.confirmed ->
  Purchase.save_ok accepts (purchases db)
    (Purchase.cancelled_record reason p) = true ->
  cancel accepts user id reason db
  = (mkResponse 200 true "Achat annulé avec succès"
       (Some (Purchase.cancelled_record reason p)),
     snd (release_lines (Purchase.items p)
            (mkDB (tickets db)
               (<[Purchase._id p := Purchase.cancelled_record reason p]>
                  (purchases db))))).
Proof.
  intros Hfound Howner Hstatus Hsave.
  unfold cancel, try_catch, cancel_body. unfold bind at 1.
  rewrite (Purchase_findOne_owned _ _ _ _ Hfound Howner).
  unfold bind at 1, call_purchase.
  rewrite (cancelPurchase_confirmed (purchases db) accepts reason p
             Hstatus Hsave).
  set (p' := Purchase.cancelled_record reason p).
  cbn [fst snd Doc.this Doc.collection]. unfold bind at 1.
  cbn [await ret]. unfold bind at 1.
  change (Purchase.items p') with (Purchase.items p).
  destruct (release_lines_next (Purchase.items p)
              (mkDB (tickets db) (<[Purchase._id p := p']> (purchases db))))
    as (coll' & ->).
  reflexivity.
Qed.

(** X12: the cancel route on a confirmed purchase of the owner, on a
    well-keyed store and for lines whose quantities are not negative.
    When the save of the cancelled record passes, every ticket with
    limited stock gets back the total quantity of the lines that name it
    (the sum being at most 2^53), a ticket with unlimited stock is left as
    it is, and the purchase counter and the revenue of every ticket stay
    as the purchase left them: the statistics are not reversed.  When the
    save is turned down, the answer is 500 and nothing is released. *)
Theorem cancel_releases_stock (accepts : Purchase.Acceptance)
  (user id : string) (reason : option string) (db : DB) (p : Purchase.t)
  (Hfound : purchases db !! id = Some p)
  (Howner : Purchase.userId (Purchase.customer p) = user)
  (Hconfirmed : Purchase.status p = Purchase.confirmed)
  (Hkeys : well_keyed (tickets db))
  (Hquantities : Forall (fun it => 0 <= Purchase.quantity it)
                        (Purchase.items p)) :
  let p' := Purchase.cancelled_record reason p in
  ((forall s, Purchase.notes p' = Some s -> JS.length s <= 500) ->
   accepts p' (purchases db) = true ->
   forall k tk,
     tickets db !! k = Some tk -> stock_ok tk ->
     Ticket.stock tk + demand k (Purchase.items p) <= 2 ^ 53 ->
     exists tk',
       tickets (snd (cancel accepts user id reason db)) !! k = Some tk'
       /\ (Ticket.stock tk = -1 -> tk' = tk)
       /\ (Ticket.stock tk <> -1 ->
           Ticket.stock tk'
           = Ticket.stock tk + demand k (Purchase.items p))
       /\ Ticket.purchaseCount tk' = Ticket.purchaseCount tk
       /\ Ticket.revenue tk' = Ticket.revenue tk
       /\ Ticket.isAvailable tk' = Ticket.isAvailable tk)
  /\ ((exists s, Purchase.notes p' = Some s /\ JS.length s > 500)
      \/ accepts p' (purchases db) = false ->
      cancel accepts user id reason db
      = (failure 500 "Erreur lors de l'annulation de l'achat", db)).
Proof.
  intros p'. split.
  - intros Hnotes Haccepts k tk Hk Hok Hbound.
    assert (Hsave : Purchase.save_ok accepts (purchases db) p' = true)
      by (apply save_ok_spec; split; assumption).
    rewrite (cancel_confirmed_state _ _ _ _ _ _ Hfound Howner Hconfirmed
               Hsave).
    cbn [snd].
    destruct (release_lines_effect (Purchase.items p)
                (mkDB (tickets db)
                   (<[Purchase._id p := Purchase.cancelled_record reason p]>
                      (purchases db))) Hkeys Hquantities) as (Heffect & _).
    rewrite (Heffect k tk Hk Hok Hbound).
    eexists. split; [reflexivity|].
    destruct (Ticket.stock tk =? -1) eqn:E; simpl.
    + repeat split. lia.
    + repeat split. lia.
  - intros Hwhy.
    apply (cancel_rejected _ _ _ _ _ p Hfound Howner). right.
    destruct (Purchase.save_ok accepts (purchases db) p') eqn:Hsave;
      [|exact Hsave].
    apply save_ok_spec in Hsave as [Hnotes Haccepts].
    destruct Hwhy as [(s & Hs & Hlong) | Hno]; [|congruence].
    specialize (Hnotes s Hs). lia.
Qed.

(** The second loop of the POST handler keeps the store well keyed. *)
Lemma commit_stock_well_keyed (its : list Purchase.Item) (db : DB) :
  well_keyed (tickets db) ->
  well_keyed (tickets (snd (commit_stock its db))).
Proof.
  revert db. induction its as [|it rest IH]; intros db Hkeys.
  - exact Hkeys.
  - destruct (tickets db !! Purchase.ticketId it) as [tk0|] eqn:Hfound.
    + destruct (commit_stock_cons it rest db tk0 Hfound)
        as (c & -> & Hsold & Hothers).
      apply IH. cbn [tickets]. intros k' t Hlook.
      destruct (decide (k' = Ticket._id tk0)) as [->|Hne].
      * rewrite Hsold in Hlook. injection Hlook as <-.
        apply sold_fields.
      * rewrite (Hothers _ Hne) in Hlook. apply (Hkeys _ _ Hlook).
    + rewrite (commit_stock_missing _ _ _ Hfound). exact Hkeys.
Qed.

(** X13: the two loops in sequence, reserving the lines of a purchase and
    later releasing the same lines, on a well-keyed store that holds every
    ticket of the lines, for quantities that are not negative and stocks
    that stay within 2^53: a ticket with unlimited stock keeps the
    sentinel; a ticket with limited stock that covered the total quantity
    of its lines is back to its stock; one whose stock did not cover it
    ends above its original stock. *)
Theorem reserve_then_release_lines (its : list Purchase.Item) (db : DB)
  (Hkeys : well_keyed (tickets db))
  (Hpresent : Forall (fun it => is_Some (tickets db !! Purchase.ticketId it))
                     its)
  (Hquantities : Forall (fun it => 0 <= Purchase.quantity it) its) :
  forall k tk,
    tickets db !! k = Some tk -> stock_ok tk ->
    Ticket.stock tk + demand k its <= 2 ^ 53 ->
    exists tk',
      tickets (snd (release_lines its (snd (commit_stock its db)))) !! k
      = Some tk'
      /\ (Ticket.stock tk = -1 -> Ticket.stock tk' = -1)
      /\ (Ticket.stock tk <> -1 -> demand k its <= Ticket.stock tk ->
          Ticket.stock tk' = Ticket.stock tk)
      /\ (Ticket.stock tk <> -1 -> Ticket.stock tk < demand k its ->
          Ticket.stock tk < Ticket.stock tk').
Proof.
  intros k tk Hk Hok Hbound.
  pose proof (demand_nonneg k its Hquantities) as Hnn.
  destruct (commit_stock_effect its db Hkeys Hpresent k tk Hk Hok)
    as (tk1 & Hlook & _ & _ & _ & _ & Hok1 & Hunl & Hexact).
  destruct (Hexact Hquantities) as [Hle Hex]; [lia|].
  destruct (release_lines_effect its (snd (commit_stock its db))
              (commit_stock_well_keyed its db Hkeys) Hquantities)
    as (Heffect & _).
  rewrite (Heffect k tk1 Hlook Hok1) by lia.
  eexists. split; [reflexivity|].
  destruct (Ticket.stock tk1 =? -1) eqn:E; simpl.
  - assert (Hunlimited : Ticket.stock tk = -1) by (apply Hunl; lia).
    repeat split; lia.
  - assert (Hlimited : Ticket.stock tk <> -1)
      by (intros Hs; apply Hunl in Hs; lia).
    assert (Hnat : 0 <= Ticket.stock tk1) by (destruct Hok1; lia).
    split; [lia|]. split.
    + intros _ Hcovered. rewrite (Hex Hlimited Hcovered). lia.
    + intros _ Hshort. lia.
Qed.

End CancelEffects.

(** ** The validation route and the owner of a purchase *)

Section ReadRoutes.

Import Routes PurchaseRoutes PurchaseReads.


(** What the search by code finds is stored and carries the trimmed
    code. *)
Lemma Purchase_findOne_qrCode_found (code : string) (db : DB)
  (p : Purchase.t) :
  fst (Purchase_findOne_qrCode code db) = Next (Some p) ->
  exists k, purchases db !! k = Some p /\ Purchase.qrCode p = JS.trim code.
Proof.
  unfold Purchase_findOne_qrCode. cbn [fst]. intros [= Hfind].
  destruct (List.find _ _) as [[k p']|] eqn:E; [|discriminate].
  simpl in Hfind. injection Hfind as ->.
  apply find_some in E as [Hin Hcode]. simpl in Hcode.
  exists k. split.
  - apply elem_of_map_to_list, list_elem_of_In. exact Hin.
  - apply String.eqb_eq. exact Hcode.
Qed.


(** A code whose trimmed text exactly one stored purchase carries finds
    that purchase. *)
Lemma Purchase_findOne_qrCode_unique (code : string) (db : DB)
  (k : string) (p : Purchase.t) :
  purchases db !! k = Some p -> Purchase.qrCode p = JS.trim code ->
  (forall k' p', purchases db !! k' = Some p' ->
                 Purchase.qrCode p' = JS.trim code -> p' = p) ->
  fst (Purchase_findOne_qrCode code db) = Next (Some p).
Proof.
  intros Hstored Hcode Hunique.
  destruct (fst (Purchase_findOne_qrCode code db)) as [[p'|]|r|e] eqn:E.
  - destruct (Purchase_findOne_qrCode_found _ _ _ E) as (k' & Hk' & Hc').
    rewrite (Hunique _ _ Hk' Hc'). reflexivity.
  - exfalso. unfold Purchase_findOne_qrCode in E. cbn [fst] in E.
    destruct (List.find _ _) as [[k' p']|] eqn:F; [discriminate|].
    assert (Hin : In (k, p) (map_to_list (purchases db)))
      by (apply list_elem_of_In, elem_of_map_to_list; exact Hstored).
    pose proof (find_none _ _ F _ Hin) as Hno. simpl in Hno.
    rewrite Hcode, String.eqb_refl in Hno. discriminate.
  - unfold Purchase_findOne_qrCode in E. discriminate.
  - unfold Purchase_findOne_qrCode in E. discriminate.
Qed.


(** The validation route finds a purchase by its code with blanks around
    it. *)
Lemma validate_route_padded :
  fst (validate 1700000000005 (Some "  PUR1700000000000K3F9A ")
         Scenario.stored)
  = mkResponse 200 true "Billet valide" (Some Sample.confirmed).
Proof. vm_compute. reflexivity. Qed.

(** X15: a purchase that the POST route has just created is turned down
    by the validation route, at every reading of the clock, with 400 and
    the reason that it is not confirmed (the code being new to the
    store). *)
Theorem created_purchase_fails_validation (w : World) (req : Req.t)
  (db : DB) (p : Purchase.t) (now : Z)
  (Hcreated : data (fst (create w req db)) = Some p)
  (Hfree : code_free (purchaseId w) (purchases db)) :
  Purchase.qrCode p = purchaseId w
  /\ validate now (Some (Purchase.qrCode p)) (snd (create w req db))
     = (failure 400 "Achat non confirmé", snd (create w req db)).
Proof.
  destruct (create_success w req db p Hcreated)
    as (subtotal & processed & image & _ & _ & Hp & _ & _ & Hdb).
  assert (Hcode : Purchase.qrCode p = purchaseId w)
    by (subst p; apply created_code).
  assert (Htrim : JS.trim (Purchase.qrCode p) = Purchase.qrCode p)
    by (rewrite Hcode; apply purchaseId_trim).
  assert (Hid : Purchase._id p = new_id w) by (subst p; reflexivity).
  assert (Hpending : Purchase.status p = Purchase.pending)
    by (subst p; reflexivity).
  split; [exact Hcode|].
  assert (Hstored : purchases (snd (create w req db))
                    = <[new_id w := p]> (purchases db))
    by (rewrite Hdb, commit_stock_purchases; reflexivity).
  apply validate_not_confirmed with (p := p).
  - rewrite Hcode. unfold purchaseId. simpl. discriminate.
  - apply Purchase_findOne_qrCode_unique with (k := new_id w).
    + rewrite Hstored. apply lookup_insert_eq.
    + symmetry; exact Htrim.
    + intros k' p' Hk' Hc'. rewrite Hstored in Hk'.
      destruct (decide (new_id w = k')) as [<-|Hne].
      * rewrite lookup_insert_eq in Hk'. congruence.
      * rewrite lookup_insert_ne in Hk' by exact Hne.
        exfalso. apply (Hfree _ _ Hk'). congruence.
  - rewrite Hpending. discriminate.
Qed.

(** X16: the owner of a created purchase is the [userId] of the
    request's customer object when it has one, and the authenticated user
    otherwise.  The read route answers 200 with the record to that owner
    and 404 to every other user, the authenticated buyer included when
    the customer object named someone else; the cancel route answers 404
    to every other user and changes nothing. *)
Theorem purchase_owner_access (w : World) (req : Req.t) (db : DB)
  (p : Purchase.t)
  (Hcreated : data (fst (create w req db)) = Some p) :
  let owner :=
    JS.or_default (Req.user_id req) (Req.userId (Req.customer (Req.body req))) in
  let db' := snd (create w req db) in
  Purchase.userId (Purchase.customer p) = owner
  /\ PurchaseReads.get_one owner (new_id w) db'
     = (Http.mk 200 true None (Some p), db')
  /\ (forall accepts user reason,
        user <> owner ->
        PurchaseReads.get_one user (new_id w) db'
        = (Http.failure 404 "Achat non trouvé", db')
        /\ cancel accepts user (new_id w) reason db'
           = (failure 404 "Achat non trouvé", db')).
Proof.
  intros owner db'.
  destruct (create_success w req db p Hcreated)
    as (subtotal & processed & image & _ & _ & Hp & _ & _ & Hdb).
  assert (Howner : Purchase.userId (Purchase.customer p) = owner)
    by (subst p; reflexivity).
  assert (Hstored : purchases db' !! new_id w = Some p).
  { subst db'. rewrite Hdb, commit_stock_purchases. apply lookup_insert_eq. }
  split; [exact Howner|]. split.
  - unfold PurchaseReads.get_one.
    rewrite (Purchase_findOne_owned _ _ _ _ Hstored Howner). reflexivity.
  - intros accepts user reason Hother.
    assert (Hnone : Purchase_findOne (new_id w) user db' = (Next None, db')).
    { unfold Purchase_findOne. rewrite Hstored, Howner.
      replace (String.eqb owner user) with false; [reflexivity|].
      symmetry. apply String.eqb_neq. congruence. }
    split.
    + unfold PurchaseReads.get_one. rewrite Hnone. reflexivity.
    + unfold cancel, try_catch, cancel_body, bind. rewrite Hnone.
      reflexivity.
Qed.

End ReadRoutes.

(** ** The ticket routes *)

Section TicketRouteFacts.

Import Routes PurchaseRoutes PurchaseReads.

(** A request with a line that is not valid is answered with 400 and
    changes nothing. *)
Lemma invalid_line_rejected (w : World) (req : Req.t) (db : DB)
  (line : Req.Line) :
  In line (Req.items (Req.body req)) ->
  ~ valid_line (tickets db) line ->
  status (fst (create w req db)) = 400 /\ snd (create w req db) = db.
Proof.
  intros Hin Hnot.
  assert (Hall : ~ Forall (valid_line (tickets db)) (Req.items (Req.body req))).
  { intros Hall. apply Hnot.
    rewrite List.Forall_forall in Hall. apply Hall. exact Hin. }
  destruct (check_lines_stops _ 0%float [] db Hall) as (r & Hr).
  pose proof (check_lines_outcome (Req.items (Req.body req)) 0%float [] db)
    as Ho.
  rewrite create_eq. cbv zeta. rewrite Hr in Ho |- *. simpl. tauto.
Qed.

Lemma set_isAvailable_twice (tk : Ticket.t) :
  TicketRoutes.set_isAvailable
    (negb (Ticket.isAvailable
             (TicketRoutes.set_isAvailable (negb (Ticket.isAvailable tk)) tk)))
    (TicketRoutes.set_isAvailable (negb (Ticket.isAvailable tk)) tk)
  = tk.
Proof. destruct tk as [? ? ? ? []]; reflexivity. Qed.

(** The release loop never stores a ticket under an identifier that is
    free in a well-keyed store. *)
Lemma release_lines_absent (its : list Purchase.Item) (db : DB) (k : string) :
  well_keyed (tickets db) ->
  tickets db !! k = None ->
  tickets (snd (release_lines its db)) !! k = None.
Proof.
  revert db. induction its as [|it rest IH]; intros db Hkeys Hnone.
  - exact Hnone.
  - destruct (tickets db !! Purchase.ticketId it) as [tk0|] eqn:Hlook.
    + destruct (release_lines_cons it rest db tk0 Hlook)
        as (c & -> & Hunl & Hlim).
      pose proof (Hkeys _ _ Hlook) as Hid.
      destruct (Z.eq_dec (Ticket.stock tk0) (-1)) as [Hs|Hs].
      * rewrite (Hunl Hs), DB_eta. apply IH; assumption.
      * rewrite (Hlim Hs). apply IH; cbn [tickets].
        -- replace (Ticket._id tk0)
             with (Ticket._id (released (Purchase.quantity it) tk0))
             by (unfold released; destruct (Ticket.stock tk0 =? -1);
                 reflexivity).
           apply well_keyed_insert. exact Hkeys.
        -- rewrite lookup_insert_ne; [exact Hnone|]. congruence.
    + rewrite (release_lines_skip _ _ _ Hlook). apply IH; assumption.
Qed.

(** X17: toggling the availability of a stored ticket flips the flag and
    nothing else; while the ticket is switched off, every purchase request
    with a line on it is answered with 400 and changes nothing; toggling
    a second time gives back the store as it was. *)
Theorem toggle_availability_spec (id : string) (db : DB) (tk : Ticket.t)
  (Hfound : tickets db !! id = Some tk)
  (Hid : Ticket._id tk = id) :
  let db1 := snd (TicketRoutes.toggle_availability id db) in
  let tk1 :=
    TicketRoutes.set_isAvailable (negb (Ticket.isAvailable tk)) tk in
  TicketRoutes.toggle_availability id db
  = (Http.mk 200 true
       (Some (if Ticket.isAvailable tk
              then "Billet désactivé avec succès"
              else "Billet activé avec succès")%string)
       (Some tk1),
     mkDB (<[id := tk1]> (tickets db)) (purchases db))
  /\ snd (TicketRoutes.toggle_availability id db1) = db
  /\ (Ticket.isAvailable tk = true ->
      forall (w : World) (req : Req.t) (line : Req.Line),
        In line (Req.items (Req.body req)) ->
        Req.ticketId line = id ->
        status (fst (create w req db1)) = 400
        /\ snd (create w req db1) = db1).
Proof.
  intros db1 tk1.
  assert (Hrun : TicketRoutes.toggle_availability id db
                 = (Http.mk 200 true
                      (Some (if Ticket.isAvailable tk
                             then "Billet désactivé avec succès"
                             else "Billet activé avec succès")%string)
                      (Some tk1),
                    mkDB (<[id := tk1]> (tickets db)) (purchases db))).
  { unfold TicketRoutes.toggle_availability. rewrite Hfound.
    unfold Doc.save. cbn [snd Doc.this Doc.collection].
    fold tk1. replace (Ticket._id tk1) with id by (subst tk1; simpl; congruence).
    subst tk1. destruct (Ticket.isAvailable tk); reflexivity. }
  split; [exact Hrun|].
  assert (Hdb1 : db1 = mkDB (<[id := tk1]> (tickets db)) (purchases db))
    by (subst db1; rewrite Hrun; reflexivity).
  split.
  - rewrite Hdb1. unfold TicketRoutes.toggle_availability.
    cbn [tickets purchases]. rewrite lookup_insert_eq.
    unfold Doc.save. cbn [snd Doc.this Doc.collection].
    subst tk1. rewrite set_isAvailable_twice, Hid.
    rewrite insert_insert_eq, (insert_id _ _ _ Hfound). apply DB_eta.
  - intros Havailable w req line Hin Hline.
    apply (invalid_line_rejected w req db1 line Hin).
    intros (t & Hlook & Hav). rewrite Hdb1, Hline in Hlook.
    cbn [tickets] in Hlook. rewrite lookup_insert_eq in Hlook.
    injection Hlook as <-. unfold available in Hav. subst tk1.
    simpl in Hav. rewrite Havailable in Hav. discriminate.
Qed.

(** X18: deleting a stored ticket removes it and nothing else: the
    purchases that refer to it are kept.  Afterwards the ticket is not
    found (404) by the read and delete routes, every purchase request
    with a line on it is answered with 400, and the cancel route still
    answers 200 on a confirmed purchase whose cancelled record passes the
    save, skipping the lines whose ticket is gone. *)
Theorem remove_ticket_spec (id : string) (db : DB) (tk : Ticket.t)
  (Hfound : tickets db !! id = Some tk) :
  let db1 := snd (TicketRoutes.remove id db) in
  Http.status (fst (TicketRoutes.remove id db)) = 200
  /\ db1 = mkDB (delete id (tickets db)) (purchases db)
  /\ TicketRoutes.get_one id db1 = (Http.failure 404 "Billet non trouvé", db1)
  /\ TicketRoutes.remove id db1 = (Http.failure 404 "Billet non trouvé", db1)
  /\ (forall (w : World) (req : Req.t) (line : Req.Line),
        In line (Req.items (Req.body req)) ->
        Req.ticketId line = id ->
        status (fst (create w req db1)) = 400
        /\ snd (create w req db1) = db1)
  /\ (forall (accepts : Purchase.Acceptance) (user pid : string)
             (reason : option string) (p : Purchase.t),
        purchases db !! pid = Some p ->
        Purchase.userId (Purchase.customer p) = user ->
        Purchase.status p = Purchase.confirmed ->
        well_keyed (tickets db) ->
        (forall s, Purchase.notes (Purchase.cancelled_record reason p)
                   = Some s -> JS.length s <= 500) ->
        accepts (Purchase.cancelled_record reason p) (purchases db) = true ->
        status (fst (cancel accepts user pid reason db1)) = 200
        /\ tickets (snd (cancel accepts user pid reason db1)) !! id = None).
Proof.
  intros db1.
  assert (Hdb1 : db1 = mkDB (delete id (tickets db)) (purchases db))
    by (subst db1; unfold TicketRoutes.remove; rewrite Hfound; reflexivity).
  assert (Hgone : tickets db1 !! id = None)
    by (rewrite Hdb1; apply lookup_delete_eq).
  split; [unfold TicketRoutes.remove; rewrite Hfound; reflexivity|].
  split; [exact Hdb1|].
  split; [unfold TicketRoutes.get_one; rewrite Hgone; reflexivity|].
  split; [unfold TicketRoutes.remove; rewrite Hgone; reflexivity|].
  split.
  - intros w req line Hin Hline.
    apply (invalid_line_rejected w req db1 line Hin).
    intros (t & Hlook & _). rewrite Hline, Hgone in Hlook. discriminate.
  - intros accepts user pid reason p Hp Howner Hconfirmed Hkeys
      Hnotes Haccepts.
    assert (Hp1 : purchases db1 !! pid = Some p)
      by (rewrite Hdb1; exact Hp).
    assert (Hsave : Purchase.save_ok accepts (purchases db1)
                      (Purchase.cancelled_record reason p) = true)
      by (rewrite Hdb1; apply save_ok_spec; split; assumption).
    rewrite (cancel_confirmed_state accepts user pid reason db1 p Hp1 Howner
               Hconfirmed Hsave).
    split; [reflexivity|]. cbn [snd].
    apply release_lines_absent; cbn [tickets]; [|exact Hgone].
    rewrite Hdb1. cbn [tickets]. intros k t Hlook.
    apply lookup_delete_Some in Hlook as [_ Hlook].
    apply (Hkeys _ _ Hlook).
Qed.

End TicketRouteFacts.

Section TicketEditFacts.

Import Routes PurchaseRoutes PurchaseReads.



(** The sum that [reduce] computes, from any starting value. *)
Lemma totalItems_fold (its : list Purchase.Item) (start : Z) :
  fold_left (fun total item => total + Purchase.quantity item) its start
  = start + fold_right Z.add 0 (map Purchase.quantity its).
Proof.
  revert start. induction its as [|it rest IH]; intros start; simpl.
  - lia.
  - rewrite IH. lia.
Qed.

(** X21: the [totalItems] virtual of a created purchase is the sum of the
    quantities of the request lines. *)
Theorem totalItems_of_created (w : World) (req : Req.t) (db : DB)
  (p : Purchase.t)
  (Hcreated : data (fst (create w req db)) = Some p) :
  Purchase.totalItems p
  = fold_right Z.add 0 (map Req.quantity (Req.items (Req.body req))).
Proof.
  destruct (create_success w req db p Hcreated)
    as (subtotal & processed & image & Hloop & _ & -> & _ & _ & _).
  destruct (check_lines_result _ _ _ _ _ _ Hloop)
    as (added & Hout & Hall & _).
  simpl in Hout; subst added.
  unfold Purchase.totalItems. rewrite totalItems_fold, Z.add_0_l.
  cbn [Purchase.items purchase_for new_purchase Purchase.new
       Purchase.f_items].
  clear Hloop Hcreated.
  induction Hall as [|line it lines its (t & _ & _ & ->) _ IH];
    [reflexivity|].
  cbn [map fold_right]. rewrite IH. reflexivity.
Qed.

End TicketEditFacts.

(** ** Role checks *)

Section RoleFacts.

Import Auth.

(** X22: [requireAdmin] lets a request pass exactly when it carries a
    user whose role is admin, [requireUser] exactly when it carries a user
    whose role is user or admin; so whatever passes the admin check passes
    the user check, and a request without user is answered 401 by both. *)
Theorem role_checks (user : option User) :
  (requireAdmin user = Pass
     <-> exists u, user = Some u /\ role u = "admin"%string)
  /\ (requireUser user = Pass
      <-> exists u, user = Some u
                    /\ (role u = "user"%string \/ role u = "admin"%string))
  /\ (requireAdmin user = Pass -> requireUser user = Pass)
  /\ (user = None ->
      requireAdmin user = Deny 401 "Authentification requise"
      /\ requireUser user = Deny 401 "Authentification requise").
Proof.
  assert (Hadmin : requireAdmin user = Pass
                   <-> exists u, user = Some u /\ role u = "admin"%string).
  { unfold requireAdmin. destruct user as [u|].
    - destruct (String.eqb_spec (role u) "admin") as [He|Hne]; simpl.
      + split; [intros _; exists u; auto | reflexivity].
      + split; [discriminate|]. intros (u' & [= <-] & Hr). contradiction.
    - split; [discriminate|]. intros (u & Hu & _). discriminate. }
  assert (Huser : requireUser user = Pass
                  <-> exists u, user = Some u
                                /\ (role u = "user"%string
                                    \/ role u = "admin"%string)).
  { unfold requireUser. destruct user as [u|].
    - simpl.
      destruct (String.eqb_spec (role u) "user") as [He|Hne]; simpl.
      + split; [intros _; exists u; auto | reflexivity].
      + destruct (String.eqb_spec (role u) "admin") as [He'|Hne']; simpl.
        * split; [intros _; exists u; auto | reflexivity].
        * split; [discriminate|].
          intros (u' & [= <-] & [Hr|Hr]); contradiction.
    - split; [discriminate|]. intros (u & Hu & _). discriminate. }
  split; [exact Hadmin|]. split; [exact Huser|]. split.
  - intros Hpass. apply Huser. apply Hadmin in Hpass as (u & Hu & Hr).
    exists u. auto.
  - intros ->. split; reflexivity.
Qed.

End RoleFacts.

(** ** The properties above on the sample data *)

Lemma sample_well_keyed : PurchaseRoutes.well_keyed (Routes.tickets Sample.db).
Proof.
  intros k tk Hlook. unfold Sample.db in Hlook. cbn [Routes.tickets] in Hlook.
  apply lookup_singleton_Some in Hlook as [<- <-]. reflexivity.
Qed.

Lemma stored_well_keyed :
  PurchaseRoutes.well_keyed (Routes.tickets Scenario.stored).
Proof.
  intros k tk Hlook. unfold Scenario.stored in Hlook.
  cbn [Routes.tickets] in Hlook.
  apply lookup_singleton_Some in Hlook as [<- <-]. reflexivity.
Qed.

Lemma purchase_stock_effect_witness :
  exists tk',
    Routes.tickets
      (snd (PurchaseRoutes.create Sample.world Sample.request Sample.db))
      !! "t1" = Some tk'
    /\ Ticket.price tk' = 1000%float
    /\ Ticket.stock tk' = 3.
Proof.
  destruct (purchase_stock_effect Sample.world Sample.request Sample.db
              Sample.purchase) with (k := "t1") (tk := Sample.ticket)
    as (tk' & Hlook & _ & _ & Hprice & _ & _ & _ & Hexact).
  - vm_compute; reflexivity.
  - exact sample_well_keyed.
  - reflexivity.
  - right; simpl; lia.
  - exists tk'. split; [exact Hlook|]. split; [exact Hprice|].
    apply Hexact.
    + repeat constructor. simpl; lia.
    + vm_compute; discriminate.
    + simpl; lia.
    + simpl; lia.
Defined.




Lemma purchase_encoding_failure_witness :
  snd (PurchaseRoutes.create Scenario.broken Sample.request Sample.db)
  = Sample.db.
Proof.
  rewrite (purchase_encoding_failure Scenario.broken Sample.request
             Sample.db "encoding failed"); [reflexivity| |reflexivity].
  repeat constructor. exists Sample.ticket. split; reflexivity.
Defined.


Lemma cancel_releases_stock_witness :
  exists tk',
    Routes.tickets
      (snd (PurchaseRoutes.cancel Sample.lenient "u1" "p1" None
              Scenario.stored)) !! "t1"
    = Some tk'
    /\ Ticket.stock tk' = 5
    /\ Ticket.revenue tk' = 2000%float.
Proof.
  destruct (cancel_releases_stock Sample.lenient "u1" "p1" None
              Scenario.stored Sample.confirmed eq_refl eq_refl eq_refl
              stored_well_keyed) as [Hreleased _].
  - repeat constructor. simpl; lia.
  - destruct (Hreleased) with (k := "t1"%string)
        (tk := PurchaseReads.sold 2 2000%float Sample.ticket)
      as (tk' & Hlook & _ & Hstock & _ & Hrevenue & _).
    + intros s [= <-]. vm_compute; discriminate.
    + reflexivity.
    + reflexivity.
    + right; vm_compute; discriminate.
    + vm_compute; discriminate.
    + exists tk'. split; [exact Hlook|]. split.
      * rewrite Hstock; [reflexivity | vm_compute; discriminate].
      * rewrite Hrevenue. reflexivity.
Defined.

Lemma reserve_then_release_lines_witness :
  exists tk',
    Routes.tickets
      (snd (PurchaseRoutes.release_lines (Purchase.items Sample.purchase)
              (snd (PurchaseRoutes.commit_stock
                      (Purchase.items Sample.purchase) Sample.db)))) !! "t1"
    = Some tk'
    /\ Ticket.stock tk' = 5.
Proof.
  destruct (reserve_then_release_lines (Purchase.items Sample.purchase)
              Sample.db sample_well_keyed)
    with (k := "t1") (tk := Sample.ticket)
    as (tk' & Hlook & _ & Hback & _).
  - repeat constructor. eexists; reflexivity.
  - repeat constructor. simpl; lia.
  - reflexivity.
  - right; simpl; lia.
  - vm_compute; discriminate.
  - exists tk'. split; [exact Hlook|].
    rewrite Hback; [reflexivity | simpl; lia | simpl; lia].
Defined.

Lemma created_purchase_fails_validation_witness :
  Routes.status
    (fst (PurchaseRoutes.validate 1700000000005 (Some "PUR1700000000000K3F9A")
            (snd (PurchaseRoutes.create Sample.world Sample.request
                    Sample.db))))
  = 400.
Proof.
  destruct (created_purchase_fails_validation Sample.world Sample.request
              Sample.db Sample.purchase 1700000000005) as [_ Hrun].
  - vm_compute; reflexivity.
  - intros k p Hlook. simpl in Hlook. rewrite lookup_empty in Hlook.
    discriminate.
  - change (Some "PUR1700000000000K3F9A")
      with (Some (Purchase.qrCode Sample.purchase)).
    rewrite Hrun. reflexivity.
Defined.

Lemma purchase_owner_access_witness :
  Http.status
    (fst (PurchaseReads.get_one "u1" "p1"
            (snd (PurchaseRoutes.create Sample.world Scenario.for_other
                    Sample.db))))
  = 404
  /\ Http.status
       (fst (PurchaseReads.get_one "u2" "p1"
               (snd (PurchaseRoutes.create Sample.world Scenario.for_other
                       Sample.db))))
     = 200.
Proof.
  assert (Hcreated :
    exists p,
      Routes.data
        (fst (PurchaseRoutes.create Sample.world Scenario.for_other Sample.db))
      = Some p) by (vm_compute; eexists; reflexivity).
  destruct Hcreated as (p & Hcreated).
  destruct (purchase_owner_access Sample.world Scenario.for_other Sample.db
              p Hcreated) as (_ & Howner & Hothers).
  split.
  - destruct (Hothers Sample.lenient "u1"%string None) as [Hget _]; [discriminate|].
    change (new_id Sample.world) with "p1" in Hget.
    rewrite Hget. reflexivity.
  - change (new_id Sample.world) with "p1" in Howner.
    simpl JS.or_default in Howner. rewrite Howner. reflexivity.
Defined.

Lemma toggle_availability_spec_witness :
  snd (TicketRoutes.toggle_availability "t1"
         (snd (TicketRoutes.toggle_availability "t1" Sample.db)))
  = Sample.db.
Proof.
  apply (toggle_availability_spec "t1" Sample.db Sample.ticket);
    reflexivity.
Defined.

Lemma remove_ticket_spec_witness :
  TicketRoutes.get_one "t1" (snd (TicketRoutes.remove "t1" Scenario.stored))
  = (Http.failure 404 "Billet non trouvé",
     snd (TicketRoutes.remove "t1" Scenario.stored)).
Proof.
  apply (remove_ticket_spec "t1" Scenario.stored
           (PurchaseReads.sold 2 2000%float Sample.ticket)).
  reflexivity.
Defined.



Lemma totalItems_of_created_witness :
  Purchase.totalItems Sample.purchase = 2.
Proof.
  rewrite (totalItems_of_created Sample.world Sample.request Sample.db
             Sample.purchase); [reflexivity|].
  vm_compute; reflexivity.
Defined.
